(** * The streaming decoder of [tutorial_poc.py]

    A shallow embedding of [GPTMeAPIClient.generate_response_stream] and of
    the loop of [main] that consumes it, with the parts of the Python
    runtime and of the [requests] and [json] libraries they rely on.

    - Python [bytes] are lists of [Byte.byte]; Python [str] is a list of
      Unicode code points ([N]).
    - Exceptions are values of [exn]; a call that may raise returns a
      [result].
    - A generator is an explicit state ([generator]) with a [next]
      operation; the standard output it prints to is a component of that
      state. *)

From Stdlib Require Import List NArith ZArith Bool String Ascii Lia.
From Stdlib.Strings Require Import Byte.
Import ListNotations.

#[local] Set Warnings "-register-all".
Local Open Scope N_scope.

(** ** Python values common to the whole script *)

Module Py.

Definition bytes := list byte.
Definition codepoint := N.
Definition str := list codepoint.

(** The exception classes that occur on the streaming path. *)
Inductive exn :=
| UnicodeDecodeError
| JSONDecodeError
| RecursionError
| ValueError
| AttributeError
| HTTPError (status_code : Z)
| ConnectionError
| ChunkedEncodingError.

Inductive result (A : Type) :=
| Return (a : A)
| Raise (e : exn).
Arguments Return {A} a.
Arguments Raise {A} e.

(** A [str] literal, from a Rocq string of ASCII characters. *)
Definition str_of (s : string) : str :=
  map (fun b => Byte.to_N b) (list_byte_of_string s).

(** A [bytes] literal [b'...']. *)
Definition bytes_of (s : string) : bytes := list_byte_of_string s.

(** Writes the double quote of a literal as an apostrophe:
    [dq "{'a':1}"] is the text [{"a":1}]. *)
Definition dq (s : string) : string :=
  string_of_list_byte
    (map (fun b => match b with x27 => x22 | _ => b end)
         (list_byte_of_string s)).

Fixpoint str_eqb (a b : str) : bool :=
  match a, b with
  | [], [] => true
  | x :: a', y :: b' => (x =? y) && str_eqb a' b'
  | _, _ => false
  end.

(** [s.startswith(prefix)] *)
Fixpoint startswith (s prefix : str) : bool :=
  match prefix, s with
  | [], _ => true
  | p :: prefix', c :: s' => (c =? p) && startswith s' prefix'
  | _ :: _, [] => false
  end.

(** [s[n:]] for [n >= 0] *)
Definition slice_from (n : nat) (s : str) : str := skipn n s.

(** The ASCII white space of [bytes.isspace]: space, tab, line feed,
    vertical tab, form feed, carriage return. *)
Definition is_space (b : byte) : bool :=
  match b with
  | x20 | x09 | x0a | x0b | x0c | x0d => true
  | _ => false
  end.

(** Truth value of a [bytes] object: [if line:] *)
Definition truthy (b : bytes) : bool :=
  match b with [] => false | _ :: _ => true end.

End Py.
Import Py.

(** ** [bytes.decode("utf-8")], strict error handling *)

Module Utf8.

Definition cont (b : byte) : bool :=
  let n := Byte.to_N b in (128 <=? n) && (n <=? 191).

Definition between (lo hi : N) (b : byte) : bool :=
  let n := Byte.to_N b in (lo <=? n) && (n <=? hi).

Definition low6 (b : byte) : N := Byte.to_N b - 128.

(** One pass over the bytes; [None] stands for [UnicodeDecodeError].
    Overlong forms, surrogates (U+D800..U+DFFF) and code points above
    U+10FFFF are rejected, as CPython does. *)
Fixpoint decode_points (l : bytes) : option str :=
  match l with
  | [] => Some []
  | b0 :: r0 =>
    let n0 := Byte.to_N b0 in
    if n0 <? 128 then option_map (cons n0) (decode_points r0)
    else match r0 with
    | [] => None
    | b1 :: r1 =>
      if between 194 223 b0 then
        if cont b1
        then option_map (cons ((n0 - 192) * 64 + low6 b1)) (decode_points r1)
        else None
      else match r1 with
      | [] => None
      | b2 :: r2 =>
        if between 224 239 b0 then
          if (if n0 =? 224 then between 160 191 b1
              else if n0 =? 237 then between 128 159 b1
              else cont b1) && cont b2
          then option_map
                 (cons ((n0 - 224) * 4096 + low6 b1 * 64 + low6 b2))
                 (decode_points r2)
          else None
        else match r2 with
        | [] => None
        | b3 :: r3 =>
          if between 240 244 b0 then
            if (if n0 =? 240 then between 144 191 b1
                else if n0 =? 244 then between 128 143 b1
                else cont b1) && cont b2 && cont b3
            then option_map
                   (cons ((n0 - 240) * 262144 + low6 b1 * 4096
                          + low6 b2 * 64 + low6 b3))
                   (decode_points r3)
            else None
          else None
        end
      end
    end
  end.

Definition decode (l : bytes) : result str :=
  match decode_points l with
  | Some s => Return s
  | None => Raise UnicodeDecodeError
  end.

End Utf8.

(** ** [json.loads] on a [str] *)

Module Json.

(** The values [json.loads] builds. A Python [dict] is kept as its items
    in insertion order, with one entry per key. A [float] keeps the text
    of its literal: the binary rounding of Python floats is not part of
    this model. *)
Inductive json :=
| JNull
| JBool (b : bool)
| JInt (z : Z)
| JFloat (literal : str)
| JString (s : str)
| JArray (items : list json)
| JObject (items : list (str * json)).

(** [d[k] = v] *)
Fixpoint dict_set (d : list (str * json)) (k : str) (v : json)
  : list (str * json) :=
  match d with
  | [] => [(k, v)]
  | (k', v') :: d' =>
    if str_eqb k' k then (k', v) :: d' else (k', v') :: dict_set d' k v
  end.

(** [dict(pairs)]: a repeated key keeps its first position and its last
    value. *)
Definition dict_of_pairs (pairs : list (str * json)) : list (str * json) :=
  fold_left (fun d kv => dict_set d (fst kv) (snd kv)) pairs [].

(** [d.get(k)] as an option *)
Fixpoint dict_lookup (d : list (str * json)) (k : str) : option json :=
  match d with
  | [] => None
  | (k', v) :: d' => if str_eqb k' k then Some v else dict_lookup d' k
  end.

(** *** The limits of the interpreter *)

(** [sys.getrecursionlimit()], 1000 unless it is changed: [json.loads]
    raises [RecursionError] when it has to enter a container and as many
    are open already. (In CPython the frames in use at the call count
    against the limit as well, so that the real bound on the nesting lies
    a few levels below it, and it is not the same in every version.) *)
Definition recursion_limit : nat := 1000.

(** [sys.get_int_max_str_digits()], 4300 unless it is changed: the
    conversion of an integer literal with more digits raises
    [ValueError]. *)
Definition max_str_digits : nat := 4300.

(** *** Scanner: characters to tokens *)

(** Where the scanner is inside a number: an optional minus sign, then
    0 or a run of digits that does not start with 0, then an optional
    fraction (a dot and digits), then an optional exponent (e or E, an
    optional sign, digits). *)
Inductive numpos :=
| NMinus | NZero | NInt | NDot | NFrac | NE | NESign | NExp.

(** A number is handed over as the text read for it and the place where
    the reading stopped. *)
Inductive token :=
| TLBrace | TRBrace | TLBracket | TRBracket | TComma | TColon
| TValue (v : json)
| TNumber (p : numpos) (chars_rev : str).

Inductive mode :=
| MIdle
| MLiteral (expected : str) (v : json)
| MNumber (p : numpos) (chars_rev : str)
| MString (acc_rev : str) (high : option N)
| MEscape (acc_rev : str) (high : option N)
| MHex (acc_rev : str) (high : option N) (more : nat) (value : N).

Definition is_ws (c : N) : bool :=
  (c =? 32) || (c =? 9) || (c =? 10) || (c =? 13).

Definition is_digit (c : N) : bool := (48 <=? c) && (c <=? 57).

Definition hex_value (c : N) : option N :=
  if (48 <=? c) && (c <=? 57) then Some (c - 48)
  else if (97 <=? c) && (c <=? 102) then Some (c - 87)
  else if (65 <=? c) && (c <=? 70) then Some (c - 55)
  else None.

Definition is_high_surrogate (c : N) : bool := (55296 <=? c) && (c <=? 56319).
Definition is_low_surrogate (c : N) : bool := (56320 <=? c) && (c <=? 57343).

Definition push_high (acc_rev : str) (high : option N) : str :=
  match high with Some h => h :: acc_rev | None => acc_rev end.

(** The integer a run of decimal digits denotes. *)
Definition int_of_digits (ds : str) : Z :=
  fold_left (fun a c => (10 * a + Z.of_N (c - 48))%Z) ds 0%Z.

(** The conversion of an integer literal. *)
Definition int_value (chars_rev : str) : result json :=
  if Nat.ltb max_str_digits (List.length (filter is_digit chars_rev))
  then Raise ValueError
  else Return (JInt (match rev chars_rev with
                     | 45 :: ds => (- int_of_digits ds)%Z
                     | ds => int_of_digits ds
                     end)).

(** The integer was read and what follows it is no fraction and no
    exponent: the integer is converted, and the text after it is then
    found to be no JSON. *)
Definition int_then_garbage (chars_rev : str) : result json :=
  match int_value chars_rev with
  | Raise e => Raise e
  | Return _ => Raise JSONDecodeError
  end.

(** What the text read for a number gives, when the reading stopped at
    [p]. A number that stops in the middle of a fraction or of an
    exponent is the number before that part, followed by text that is no
    JSON. *)
Definition number_value (p : numpos) (chars_rev : str) : result json :=
  match p with
  | NZero | NInt => int_value chars_rev
  | NFrac | NExp => Return (JFloat (rev chars_rev))
  | NMinus => Raise JSONDecodeError
  | NDot => int_then_garbage chars_rev
  | NE | NESign =>
    if existsb (N.eqb 46) chars_rev
    then Raise JSONDecodeError
    else int_then_garbage chars_rev
  end.

(** A character met outside any token. *)
Definition idle (c : N) : option (mode * list token) :=
  if is_ws c then Some (MIdle, [])
  else if c =? 123 then Some (MIdle, [TLBrace])
  else if c =? 125 then Some (MIdle, [TRBrace])
  else if c =? 91 then Some (MIdle, [TLBracket])
  else if c =? 93 then Some (MIdle, [TRBracket])
  else if c =? 44 then Some (MIdle, [TComma])
  else if c =? 58 then Some (MIdle, [TColon])
  else if c =? 34 then Some (MString [] None, [])
  else if c =? 110 then Some (MLiteral (str_of "ull") JNull, [])
  else if c =? 116 then Some (MLiteral (str_of "rue") (JBool true), [])
  else if c =? 102 then Some (MLiteral (str_of "alse") (JBool false), [])
  else if c =? 78 then Some (MLiteral (str_of "aN") (JFloat (str_of "NaN")), [])
  else if c =? 73
    then Some (MLiteral (str_of "nfinity") (JFloat (str_of "Infinity")), [])
  else if c =? 45 then Some (MNumber NMinus [c], [])
  else if c =? 48 then Some (MNumber NZero [c], [])
  else if is_digit c then Some (MNumber NInt [c], [])
  else None.

(** One character of the text: the tokens it completes, in order, and
    the mode for the next character, or [None] when the character cannot
    stand there. *)
Definition step (r : option (mode * list token)) : list token * option mode :=
  match r with
  | Some (m, ts) => (ts, Some m)
  | None => ([], None)
  end.

(** A number ends at [c]: its token is produced and [c] is read again
    from the idle mode. *)
Definition end_number (p : numpos) (chars_rev : str) (c : N)
  : list token * option mode :=
  match idle c with
  | Some (m, ts) => (TNumber p chars_rev :: ts, Some m)
  | None => ([TNumber p chars_rev], None)
  end.

Definition in_number (p : numpos) (chars_rev : str) (c : N)
  : list token * option mode :=
  let go p' := ([], Some (MNumber p' (c :: chars_rev))) in
  let stop := ([TNumber p chars_rev], None) in
  match p with
  | NMinus =>
    if c =? 48 then go NZero
    else if is_digit c then go NInt
    else if c =? 73
      then ([], Some (MLiteral (str_of "nfinity")
                               (JFloat (str_of "-Infinity"))))
    else stop
  | NZero =>
    if c =? 46 then go NDot
    else if (c =? 101) || (c =? 69) then go NE
    else end_number p chars_rev c
  | NInt =>
    if is_digit c then go NInt
    else if c =? 46 then go NDot
    else if (c =? 101) || (c =? 69) then go NE
    else end_number p chars_rev c
  | NDot => if is_digit c then go NFrac else stop
  | NFrac =>
    if is_digit c then go NFrac
    else if (c =? 101) || (c =? 69) then go NE
    else end_number p chars_rev c
  | NE =>
    if (c =? 43) || (c =? 45) then go NESign
    else if is_digit c then go NExp
    else stop
  | NESign => if is_digit c then go NExp else stop
  | NExp => if is_digit c then go NExp else end_number p chars_rev c
  end.

(** The character a one-letter escape stands for. *)
Definition escaped (c : N) : option N :=
  if c =? 34 then Some 34
  else if c =? 92 then Some 92
  else if c =? 47 then Some 47
  else if c =? 98 then Some 8
  else if c =? 102 then Some 12
  else if c =? 110 then Some 10
  else if c =? 114 then Some 13
  else if c =? 116 then Some 9
  else None.

(** A [\uXXXX] escape is complete. A high surrogate waits for a low
    surrogate escape that follows it at once; the two are joined. *)
Definition end_hex (acc_rev : str) (high : option N) (v : N) : mode :=
  match high with
  | Some h =>
    if is_low_surrogate v
    then MString (65536 + (h - 55296) * 1024 + (v - 56320) :: acc_rev) None
    else if is_high_surrogate v then MString (h :: acc_rev) (Some v)
    else MString (v :: h :: acc_rev) None
  | None =>
    if is_high_surrogate v then MString acc_rev (Some v)
    else MString (v :: acc_rev) None
  end.

Definition scan_step (m : mode) (c : N) : list token * option mode :=
  match m with
  | MIdle => step (idle c)
  | MLiteral expected v =>
    match expected with
    | [] => ([], None)
    | e :: rest =>
      if c =? e
      then match rest with
           | [] => ([TValue v], Some MIdle)
           | _ :: _ => ([], Some (MLiteral rest v))
           end
      else ([], None)
    end
  | MNumber p chars_rev => in_number p chars_rev c
  | MString acc_rev high =>
    if c =? 34
    then ([TValue (JString (rev (push_high acc_rev high)))], Some MIdle)
    else if c =? 92 then ([], Some (MEscape acc_rev high))
    else if c <? 32 then ([], None)
    else ([], Some (MString (c :: push_high acc_rev high) None))
  | MEscape acc_rev high =>
    if c =? 117 then ([], Some (MHex acc_rev high 3 0))
    else match escaped c with
         | Some e => ([], Some (MString (e :: push_high acc_rev high) None))
         | None => ([], None)
         end
  | MHex acc_rev high more value =>
    match hex_value c with
    | None => ([], None)
    | Some d =>
      let value' := value * 16 + d in
      match more with
      | O => ([], Some (end_hex acc_rev high value'))
      | S more' => ([], Some (MHex acc_rev high more' value'))
      end
    end
  end.

(** *** Parser: tokens to a value *)

(** A container that is being filled: an array with the items read so
    far, or an object with its pairs and the key whose value is being
    read. *)
Inductive container :=
| FArray (items_rev : list json)
| FObject (pairs_rev : list (str * json)) (key : str).

(** What the parser waits for. In [PValue] the stack holds every
    container that is open. *)
Inductive pstate :=
| PValue (first : bool) (stack : list container)
| PKey (first : bool) (pairs_rev : list (str * json)) (stack : list container)
| PColon (pairs_rev : list (str * json)) (key : str) (stack : list container)
| PArrayNext (items_rev : list json) (stack : list container)
| PObjectNext (pairs_rev : list (str * json)) (stack : list container)
| PDone (v : json).

(** A value is complete: it goes into the container on top of the
    stack, or is the result. *)
Definition reduce (v : json) (stack : list container) : pstate :=
  match stack with
  | [] => PDone v
  | FArray items_rev :: stack' => PArrayNext (v :: items_rev) stack'
  | FObject pairs_rev key :: stack' =>
    PObjectNext ((key, v) :: pairs_rev) stack'
  end.

(** The grammar: the state after a token, [None] when the token cannot
    stand there. *)
Definition parse_step (st : pstate) (t : token) : option pstate :=
  match st, t with
  | PValue _ stack, TValue v => Some (reduce v stack)
  | PValue _ stack, TLBracket => Some (PValue true (FArray [] :: stack))
  | PValue _ stack, TLBrace => Some (PKey true [] stack)
  | PValue true (FArray [] :: stack), TRBracket =>
    Some (reduce (JArray []) stack)
  | PKey _ pairs_rev stack, TValue (JString k) =>
    Some (PColon pairs_rev k stack)
  | PKey true _ stack, TRBrace => Some (reduce (JObject []) stack)
  | PColon pairs_rev k stack, TColon =>
    Some (PValue false (FObject pairs_rev k :: stack))
  | PArrayNext items_rev stack, TComma =>
    Some (PValue false (FArray items_rev :: stack))
  | PArrayNext items_rev stack, TRBracket =>
    Some (reduce (JArray (rev items_rev)) stack)
  | PObjectNext pairs_rev stack, TComma => Some (PKey false pairs_rev stack)
  | PObjectNext pairs_rev stack, TRBrace =>
    Some (reduce (JObject (dict_of_pairs (rev pairs_rev))) stack)
  | _, _ => None
  end.

(** One token, with the limits: a number is converted where a value may
    stand, and a container is entered only below the recursion limit. *)
Definition feed (st : pstate) (t : token) : result pstate :=
  match st, t with
  | PValue _ stack, TNumber p chars_rev =>
    match number_value p chars_rev with
    | Return v => Return (reduce v stack)
    | Raise e => Raise e
    end
  | PValue _ stack, (TLBracket | TLBrace) =>
    if Nat.leb recursion_limit (List.length stack)
    then Raise RecursionError
    else match parse_step st t with
         | Some st' => Return st'
         | None => Raise JSONDecodeError
         end
  | _, _ =>
    match parse_step st t with
    | Some st' => Return st'
    | None => Raise JSONDecodeError
    end
  end.

Fixpoint feed_all (st : pstate) (ts : list token) : result pstate :=
  match ts with
  | [] => Return st
  | t :: ts' =>
    match feed st t with
    | Return st' => feed_all st' ts'
    | Raise e => Raise e
    end
  end.

(** The text is read once, from left to right, and the first thing that
    is wrong decides the exception. *)
Fixpoint read (m : mode) (st : pstate) (s : str) : result json :=
  match s with
  | [] =>
    match (match m with
           | MIdle => Return st
           | MNumber p chars_rev => feed st (TNumber p chars_rev)
           | _ => Raise JSONDecodeError
           end) with
    | Return (PDone v) => Return v
    | Return _ => Raise JSONDecodeError
    | Raise e => Raise e
    end
  | c :: s' =>
    let (ts, m') := scan_step m c in
    match feed_all st ts with
    | Raise e => Raise e
    | Return st' =>
      match m' with
      | Some m'' => read m'' st' s'
      | None => Raise JSONDecodeError
      end
    end
  end.

(** [json.loads(s)] for a [str]: the value of a text that holds exactly
    one JSON value between optional white space; [JSONDecodeError] for a
    text that is not such a text; [RecursionError] and [ValueError] where
    the text goes beyond the limits of the interpreter before anything
    else is wrong with it. *)
Definition loads (s : str) : result json := read MIdle (PValue false []) s.

End Json.

Import Json.

(** ** The part of [requests] the method uses *)

Module Requests.

(** A response opened with [stream=True]: its status, the lines
    [iter_lines()] hands over (as [bytes], without their line ends), and
    how the body ends: [None] when the server closes the stream cleanly,
    [Some e] when the read fails with [e] after those lines. *)
Record Response := {
  status_code : Z;
  body_lines : list bytes;
  body_end : option exn
}.

(** [response.raise_for_status()]: [HTTPError] for the client and server
    error statuses 400..599. *)
Definition raise_for_status (response : Response) : result unit :=
  if ((400 <=? status_code response) && (status_code response <? 600))%Z
  then Raise (HTTPError (status_code response))
  else Return tt.

End Requests.
Import Requests.

(** ** [GPTMeAPIClient.generate_response_stream] *)

(** What the generator does that its caller can see, in order. *)
Inductive event :=
| Yield (chunk : json)
| Printed (text : str).

(** The events of a run and how it ends: [None] for the end of the
    iteration, [Some e] for the exception [e] raised to the caller. *)
Definition trace := (list event * option exn)%type.

(** What one call to [next] gives its caller. *)
Inductive outcome :=
| Yielded (chunk : json)
| StopIteration
| Raised (e : exn).

(** Where the body of the generator stands. *)
Inductive gi_frame :=
| Created (post : result Response)
| Suspended (lines : list bytes) (body_end : option exn)
| Finished.

(** A generator object, with the standard output its body prints to.
    [held] says that the generator keeps the response: its frame is
    suspended at the [yield] and refers to the response through the local
    variable [response]. It does so exactly between a [yield] and the end
    of the body, however the body ends. What the response does with its
    connection in that time is decided inside the library, which reads the
    body ahead of the lines it hands over, and is not part of this
    model. *)
Record generator := {
  frame : gi_frame;
  held : bool;
  stdout : list str
}.

Section Decoder.

(** [json.loads], as the method sees it: a value, [JSONDecodeError], or
    another exception. *)
Variable json_loads : str -> result json.

Definition prefix : str := str_of "data: ".

Definition failed_to_parse (data : str) : str :=
  str_of "Failed to parse: " ++ data.

(** The body of [for line in response.iter_lines()], for one line:
    nothing, one event, or an exception that leaves the loop. *)
Definition loop_body (line : bytes) : result (option event) :=
  if truthy line then
    match Utf8.decode line with
    | Raise e => Raise e
    | Return line_str =>
      if startswith line_str prefix then
        let data := slice_from 6 line_str in
        match json_loads data with
        | Return v => Return (Some (Yield v))
        | Raise JSONDecodeError => Return (Some (Printed (failed_to_parse data)))
        | Raise e => Raise e
        end
      else Return None
    end
  else Return None.

(** The whole loop, for a caller that takes every item. *)
Fixpoint for_lines (lines : list bytes) (body_end : option exn) : trace :=
  match lines with
  | [] => ([], body_end)
  | line :: rest =>
    match loop_body line with
    | Raise e => ([], Some e)
    | Return None => for_lines rest body_end
    | Return (Some ev) =>
      let (evs, fin) := for_lines rest body_end in (ev :: evs, fin)
    end
  end.

(** The method run to its end; [post] is what
    [requests.post(..., stream=True, timeout=120)] does in this run. *)
Definition generate_response_stream (post : result Response) : trace :=
  match post with
  | Raise e => ([], Some e)
  | Return response =>
    match raise_for_status response with
    | Raise e => ([], Some e)
    | Return _ => for_lines (body_lines response) (body_end response)
    end
  end.

(** *** The generator, one [next] at a time *)

(** The loop from the line it stands at to the next [yield], to the end
    of the lines, or to an exception. *)
Fixpoint resume (lines : list bytes) (body_end : option exn)
         (out : list str) : outcome * generator :=
  match lines with
  | [] =>
    let g := {| frame := Finished; held := false; stdout := out |} in
    match body_end with
    | None => (StopIteration, g)
    | Some e => (Raised e, g)
    end
  | line :: rest =>
    match loop_body line with
    | Raise e =>
      (Raised e, {| frame := Finished; held := false; stdout := out |})
    | Return None => resume rest body_end out
    | Return (Some (Printed text)) => resume rest body_end (out ++ [text])
    | Return (Some (Yield v)) =>
      (Yielded v,
       {| frame := Suspended rest body_end; held := true; stdout := out |})
    end
  end.

(** Calling the method only makes the generator; nothing runs yet. *)
Definition call (post : result Response) (out : list str) : generator :=
  {| frame := Created post; held := false; stdout := out |}.

(** [next(g)] *)
Definition next (g : generator) : outcome * generator :=
  match frame g with
  | Created (Raise e) =>
    (Raised e, {| frame := Finished; held := false; stdout := stdout g |})
  | Created (Return response) =>
    match raise_for_status response with
    | Raise e =>
      (Raised e, {| frame := Finished; held := false; stdout := stdout g |})
    | Return _ =>
      resume (body_lines response) (body_end response) (stdout g)
    end
  | Suspended lines body_end => resume lines body_end (stdout g)
  | Finished => (StopIteration, g)
  end.

(** [g.close()]: [GeneratorExit] is raised at the [yield]; the
    [except json.JSONDecodeError] clause does not take it and the method
    has no [finally], so the body just ends, and the frame with it. *)
Definition close (g : generator) : generator :=
  {| frame := Finished; held := false; stdout := stdout g |}.

(** [n] calls to [next], one after the other. *)
Fixpoint pull (n : nat) (g : generator) : list outcome * generator :=
  match n with
  | O => ([], g)
  | S n' =>
    let (o, g') := next g in
    let (os, g'') := pull n' g' in
    (o :: os, g'')
  end.

(** *** Reading a trace *)

Fixpoint chunks (evs : list event) : list json :=
  match evs with
  | [] => []
  | Yield v :: evs' => v :: chunks evs'
  | Printed _ :: evs' => chunks evs'
  end.

Fixpoint diagnostics (evs : list event) : list str :=
  match evs with
  | [] => []
  | Yield _ :: evs' => diagnostics evs'
  | Printed text :: evs' => text :: diagnostics evs'
  end.

(** How a run that ended with [fin] shows in the last call of [next]. *)
Definition last_outcome (fin : option exn) : outcome :=
  match fin with None => StopIteration | Some e => Raised e end.

(** The chunk a line gives, if it gives one. *)
Definition line_chunk (line : bytes) : option json :=
  match loop_body line with
  | Return (Some (Yield v)) => Some v
  | _ => None
  end.

(** The diagnostic a line gives, if it gives one. *)
Definition line_diagnostic (line : bytes) : option str :=
  match loop_body line with
  | Return (Some (Printed text)) => Some text
  | _ => None
  end.


(** The lines the loop gets to: all of them up to and with the first
    one whose body raises. *)
Fixpoint processed (lines : list bytes) : list bytes :=
  match lines with
  | [] => []
  | line :: rest =>
    match loop_body line with
    | Raise _ => [line]
    | Return _ => line :: processed rest
    end
  end.

(** No line of [lines] makes the loop body raise. *)
Definition passes (lines : list bytes) : Prop :=
  Forall (fun line => exists r, loop_body line = Return r) lines.

Fixpoint filter_map {A B} (f : A -> option B) (l : list A) : list B :=
  match l with
  | [] => []
  | a :: l' =>
    match f a with
    | Some b => b :: filter_map f l'
    | None => filter_map f l'
    end
  end.

End Decoder.

(** ** The loop of [main] over the chunks *)

Module Main.

(** [chunk.get(key, default)]; a chunk that is not a [dict] has no
    [get]. *)
Definition get (chunk : json) (key : str) (default : json) : result json :=
  match chunk with
  | JObject d =>
    Return (match dict_lookup d key with Some v => v | None => default end)
  | _ => Raise AttributeError
  end.

(** The three names the loop body binds before it prints them. *)
Record fields := { role : json; content : json; stored : json }.

Definition read_chunk (chunk : json) : result fields :=
  match get chunk (str_of "role") (JString (str_of "unknown")) with
  | Raise e => Raise e
  | Return r =>
    match get chunk (str_of "content") (JString []) with
    | Raise e => Raise e
    | Return c =>
      match get chunk (str_of "stored") (JBool false) with
      | Raise e => Raise e
      | Return s => Return {| role := r; content := c; stored := s |}
      end
    end
  end.

End Main.

(** ** Inputs of the examples *)

Module Example.

(** A response with status 200 whose body is [lines]. *)
Definition ok (lines : list bytes) (fin : option exn) : result Response :=
  Return {| status_code := 200; body_lines := lines; body_end := fin |}.

(** The three lines of the testable property of the specification. *)
Definition spec_lines : list bytes :=
  [ bytes_of (dq "data: {'role':'assistant','content':'Hi','stored':true}");
    [];
    bytes_of
      (dq "data: {'role':'assistant','content':' there','stored':false}") ].

Definition chunk_hi : json :=
  JObject [ (str_of "role", JString (str_of "assistant"));
            (str_of "content", JString (str_of "Hi"));
            (str_of "stored", JBool true) ].

Definition chunk_there : json :=
  JObject [ (str_of "role", JString (str_of "assistant"));
            (str_of "content", JString (str_of " there"));
            (str_of "stored", JBool false) ].

(** [b'data: 1'], [b'data: 2'] and [b'data: {not valid json}'] *)
Definition data_1 : bytes := bytes_of "data: 1".
Definition data_2 : bytes := bytes_of "data: 2".
Definition data_bad : bytes := bytes_of "data: {not valid json}".

(** [b'data: ' + b'[' * 5000]: a payload that opens 5000 arrays *)
Definition deep_nesting : bytes := bytes_of "data: " ++ repeat x5b 5000.

(** [b': keep-alive'], a line without the prefix *)
Definition keep_alive : bytes := bytes_of ": keep-alive".

(** [b'\xff'], a line that is not UTF-8 *)
Definition not_utf8 : bytes := [xff].

(** [b'data: {"stored":"yes"}'] and the chunk it gives *)
Definition stored_yes : bytes := bytes_of (dq "data: {'stored':'yes'}").
Definition chunk_stored_yes : json :=
  JObject [ (str_of "stored", JString (str_of "yes")) ].

(** A chunk without the key [stored] *)
Definition chunk_no_stored : json :=
  JObject [ (str_of "role", JString (str_of "assistant"));
            (str_of "content", JString (str_of "Hi")) ].

End Example.

(** ** [GPTMeAPIClient]: the constructor and the requests of its methods *)

Module Client.

Fixpoint drop_while {A : Type} (p : A -> bool) (l : list A) : list A :=
  match l with
  | [] => []
  | x :: l' => if p x then drop_while p l' else l
  end.

(** [s.rstrip(chars)]: [s] without the characters of [chars] at its end. *)
Definition rstrip (chars : str) (s : str) : str :=
  rev (drop_while (fun c => existsb (N.eqb c) chars) (rev s)).

Record GPTMeAPIClient := { base_url : str }.

(** [__init__(self, base_url)] *)
Definition init (url : str) : GPTMeAPIClient :=
  {| base_url := rstrip (str_of "/") url |}.

(** The default of the parameter [base_url]. *)
Definition default_base_url : str := str_of "http://localhost:11130".

Inductive verb := GET | PUT | POST.

(** A call of [requests.get], [requests.put] or [requests.post] with the
    keyword arguments the methods give: [params], [json], [stream] and
    [timeout]. A Python [None] in a payload is [JNull]. *)
Record request := {
  method : verb;
  url : str;
  params : list (str * json);
  payload : option json;
  stream : bool;
  timeout : option Z
}.

Definition opt_str (o : option str) : json :=
  match o with Some s => JString s | None => JNull end.

(** [f"{self.base_url}/api/conversations/{logfile}"] *)
Definition conversation_url (self : GPTMeAPIClient) (logfile : str) : str :=
  base_url self ++ str_of "/api/conversations/" ++ logfile.

(** [f"{self.base_url}/api/conversations/{logfile}/generate"] *)
Definition generate_url (self : GPTMeAPIClient) (logfile : str) : str :=
  base_url self ++ str_of "/api/conversations/" ++ logfile
           ++ str_of "/generate".

Definition get_api_root_request (self : GPTMeAPIClient) : request :=
  {| method := GET; url := base_url self ++ str_of "/api"; params := [];
     payload := None; stream := false; timeout := None |}.

Definition get_conversations_request (self : GPTMeAPIClient) (limit : Z)
  : request :=
  {| method := GET; url := base_url self ++ str_of "/api/conversations";
     params := [(str_of "limit", JInt limit)];
     payload := None; stream := false; timeout := None |}.

(** The truth value of an [Optional[list]] or [Optional[dict]]: [None]
    and the empty container are false. *)
Definition nonempty {A : Type} (o : option (list A)) : bool :=
  match o with
  | Some (_ :: _) => true
  | _ => false
  end.

Definition items_of {A : Type} (o : option (list A)) : list A :=
  match o with Some l => l | None => [] end.

(** The [payload] dictionary of [create_conversation]. *)
Definition create_conversation_payload
           (logfile : str) (messages : option (list json))
           (config : option (list (str * json))) : list (str * json) :=
  let payload := [(str_of "logfile", JString logfile)] in
  let payload :=
      if nonempty messages
      then dict_set payload (str_of "messages") (JArray (items_of messages))
      else payload in
  let payload :=
      if nonempty config
      then dict_set payload (str_of "config") (JObject (items_of config))
      else payload in
  payload.

Definition create_conversation_request
           (self : GPTMeAPIClient) (logfile : str)
           (messages : option (list json))
           (config : option (list (str * json))) : request :=
  {| method := PUT; url := conversation_url self logfile; params := [];
     payload := Some (JObject
                        (create_conversation_payload logfile messages config));
     stream := false; timeout := None |}.

Definition get_conversation_request (self : GPTMeAPIClient) (logfile : str)
  : request :=
  {| method := GET; url := conversation_url self logfile; params := [];
     payload := None; stream := false; timeout := None |}.

(** The default of the parameter [branch] of [add_message]. *)
Definition default_branch : str := str_of "main".

Definition add_message_request
           (self : GPTMeAPIClient) (logfile role content branch : str)
  : request :=
  {| method := POST; url := conversation_url self logfile; params := [];
     payload := Some (JObject [ (str_of "role", JString role);
                                (str_of "content", JString content);
                                (str_of "branch", JString branch) ]);
     stream := false; timeout := None |}.

Definition generate_response_request
           (self : GPTMeAPIClient) (logfile : str) (model : option str)
           (streaming : bool) : request :=
  {| method := POST; url := generate_url self logfile; params := [];
     payload := Some (JObject [ (str_of "model", opt_str model);
                                (str_of "stream", JBool streaming) ]);
     stream := false; timeout := Some 120%Z |}.

Definition generate_response_stream_request
           (self : GPTMeAPIClient) (logfile : str) (model : option str)
  : request :=
  {| method := POST; url := generate_url self logfile; params := [];
     payload := Some (JObject [ (str_of "model", opt_str model);
                                (str_of "stream", JBool true) ]);
     stream := true; timeout := Some 120%Z |}.

(** What the server gives back to a request: the response object, and
    what [response.json()] gives when it is called on it. *)
Record Reply := {
  response : Response;
  json_of : result json
}.

Section Methods.

(** The HTTP layer: [requests.get], [requests.put] and [requests.post]
    raise or return a response. *)
Variable server : request -> result Reply.

(** The three statements every method but the streaming one ends with:
    the request, [response.raise_for_status()], [return response.json()]. *)
Definition send (rq : request) : result json :=
  match server rq with
  | Raise e => Raise e
  | Return r =>
    match raise_for_status (response r) with
    | Raise e => Raise e
    | Return _ => json_of r
    end
  end.

Definition get_api_root (self : GPTMeAPIClient) : result json :=
  send (get_api_root_request self).

Definition get_conversations (self : GPTMeAPIClient) (limit : Z)
  : result json :=
  send (get_conversations_request self limit).

Definition create_conversation
           (self : GPTMeAPIClient) (logfile : str)
           (messages : option (list json))
           (config : option (list (str * json))) : result json :=
  send (create_conversation_request self logfile messages config).

Definition get_conversation (self : GPTMeAPIClient) (logfile : str)
  : result json :=
  send (get_conversation_request self logfile).

Definition add_message
           (self : GPTMeAPIClient) (logfile role content branch : str)
  : result json :=
  send (add_message_request self logfile role content branch).

Definition generate_response
           (self : GPTMeAPIClient) (logfile : str) (model : option str)
           (streaming : bool) : result json :=
  send (generate_response_request self logfile model streaming).

(** What [requests.post(..., stream=True, timeout=120)] does for the
    streaming method. *)
Definition stream_post (self : GPTMeAPIClient) (logfile : str)
           (model : option str) : result Response :=
  match server (generate_response_stream_request self logfile model) with
  | Raise e => Raise e
  | Return r => Return (response r)
  end.

End Methods.

End Client.

(** ** The script: [print_section] and [main] *)

Module Script.

Import Client.

(** The exceptions of the script: those of the libraries, and the
    [TypeError] of [len], of a [for] loop and of a subscript on a value
    that does not support them. (For a [dict] the subscript [[:n]] raises
    [TypeError] up to Python 3.11 and [KeyError] from 3.12 on; they are
    both written [TypeError] here, and the script handles them alike.) *)
Inductive error :=
| Lib (e : exn)
| TypeError.

(** One part of the argument of a [print]: literal text, a Python object
    put into an f-string (shown the way [str()] shows it, which is not
    modelled), a text of the decoder, a number, the message of an
    exception. *)
Inductive piece :=
| Text (s : string)
| Value (v : json)
| Chars (s : str)
| Count (n : nat)
| Message (e : error).

(** One call of [print]. *)
Definition line := list piece.

(** What the script has done so far: the requests it has sent and the
    lines it has printed, in order. *)
Record world := {
  sent : list request;
  printed : list line
}.

Inductive res (A : Type) :=
| Ok (a : A)
| Err (e : error).
Arguments Ok {A} a.
Arguments Err {A} e.

Definition M (A : Type) : Type := world -> res A * world.

Definition ret {A : Type} (a : A) : M A := fun w => (Ok a, w).

Definition bind {A B : Type} (m : M A) (k : A -> M B) : M B :=
  fun w =>
    match m w with
    | (Ok a, w') => k a w'
    | (Err e, w') => (Err e, w')
    end.

Notation "x <- m ;; k" := (bind m (fun x => k))
  (at level 61, m at next level, right associativity).
Notation "m ;; k" := (bind m (fun _ => k))
  (at level 61, right associativity).

Definition raise {A : Type} (e : error) : M A := fun w => (Err e, w).

Definition lift {A : Type} (r : result A) : M A :=
  match r with
  | Return a => ret a
  | Raise e => raise (Lib e)
  end.

Definition print (l : line) : M unit :=
  fun w => (Ok tt, {| sent := sent w; printed := printed w ++ [l] |}).

(** [try: body except <classes> as e: handler(e)], where [caught] says
    which exceptions the clause names. *)
Definition try_except {A : Type} (body : M A) (caught : error -> bool)
           (handler : error -> M A) : M A :=
  fun w =>
    match body w with
    | (Ok a, w') => (Ok a, w')
    | (Err e, w') => if caught e then handler e w' else (Err e, w')
    end.

(** [for x in items: body(x)] over the items of a finished list. *)
Fixpoint for_each {A : Type} (items : list A) (body : A -> M unit) : M unit :=
  match items with
  | [] => ret tt
  | x :: items' => body x ;; for_each items' body
  end.

(** *** Python operations on the values of [response.json()] *)

(** [len(v)] *)
Definition len (v : json) : M nat :=
  match v with
  | JString s => ret (List.length s)
  | JArray items => ret (List.length items)
  | JObject d => ret (List.length d)
  | JNull | JBool _ | JInt _ | JFloat _ => raise TypeError
  end.

(** The items [for x in v] goes through: the characters of a [str], the
    items of a [list], the keys of a [dict]. *)
Definition iter (v : json) : M (list json) :=
  match v with
  | JString s => ret (map (fun c => JString [c]) s)
  | JArray items => ret items
  | JObject d => ret (map (fun kv => JString (fst kv)) d)
  | JNull | JBool _ | JInt _ | JFloat _ => raise TypeError
  end.

(** [v[:n]] *)
Definition slice_to (n : nat) (v : json) : M json :=
  match v with
  | JString s => ret (JString (firstn n s))
  | JArray items => ret (JArray (firstn n items))
  | JObject _ | JNull | JBool _ | JInt _ | JFloat _ => raise TypeError
  end.

(** [v.get(key, default)] *)
Definition get (v : json) (key : string) (default : json) : M json :=
  lift (Main.get v (str_of key) default).

Definition text (s : string) : json := JString (str_of s).

(** *** [print_section] *)

Definition nl : string := String (Ascii.ascii_of_nat 10) EmptyString.

Fixpoint times (s : string) (n : nat) : string :=
  match n with
  | O => EmptyString
  | S n' => String.append s (times s n')
  end.

Definition print_section (title : string) : M unit :=
  print [Text nl; Text (times "=" 60)] ;;
  print [Text "  "; Text title] ;;
  print [Text (times "=" 60)].

(** *** [main] *)

Section Main.

Variable server : request -> result Reply.

(** A method of the client that ends with [return response.json()]. *)
Definition request_json (rq : request) : M json :=
  fun w =>
    let w' := {| sent := sent w ++ [rq]; printed := printed w |} in
    match send server rq with
    | Return v => (Ok v, w')
    | Raise e => (Err (Lib e), w')
    end.

Definition client : GPTMeAPIClient := init (str_of "http://localhost:11130").

Definition conversation_id : str := str_of "tutorial-conversation".

Definition is_connection_error (e : error) : bool :=
  match e with Lib ConnectionError => true | _ => false end.

Definition is_http_error (e : error) : bool :=
  match e with Lib (HTTPError _) => true | _ => false end.

Definition any_exception (e : error) : bool := true.

(** Test 1; [false] stands for the [return] of the handler. *)
Definition test1 : M bool :=
  print_section "Test 1: GET /api (Server Health)" ;;
  print [Text "Checking if the server is running..."] ;;
  try_except
    (api_root <- request_json (get_api_root_request client) ;;
     message <- get api_root "message" (text "No message") ;;
     print [Text "Server response: "; Value message] ;;
     print [Text "SUCCESS: Server is running!"] ;;
     ret true)
    is_connection_error
    (fun _ =>
       print [Text "ERROR: Could not connect to the server."] ;;
       print [Text nl; Text "To start the server in Docker:"] ;;
       print [Text "  docker run -p 11130:8000 -e GPTME_DISABLE_AUTH=true gptme-server:latest"] ;;
       ret false).

Definition test2 : M unit :=
  print_section "Test 2: GET /api/conversations (List Conversations)" ;;
  conversations <- request_json (get_conversations_request client 5) ;;
  n <- len conversations ;;
  print [Text "Found "; Count n; Text " conversation(s):"] ;;
  items <- iter conversations ;;
  for_each items (fun conv => print [Text "  - "; Value conv]).

Definition initial_messages : list json :=
  [ JObject [ (str_of "role", text "system");
              (str_of "content", text "You are a helpful AI assistant.") ];
    JObject [ (str_of "role", text "user");
              (str_of "content", text "Hello, how are you?") ] ].

Definition test3 : M unit :=
  print_section "Test 3: PUT /api/conversations/<id> (Create Conversation)" ;;
  print [Text "Creating conversation: "; Chars conversation_id] ;;
  request_json
    (create_conversation_request client conversation_id
                                 (Some initial_messages) None) ;;
  print [Text "SUCCESS: Created conversation '"; Chars conversation_id;
         Text "'"].

(** The body of the loop over the messages of Test 4. *)
Definition test4_message (msg : json) : M unit :=
  role <- get msg "role" (text "unknown") ;;
  all <- get msg "content" (text "") ;;
  content <- slice_to 100 all ;;
  n <- len content ;;
  print [Text "  ["; Value role; Text "] "; Value content;
         Text (if Nat.ltb 100 n then "..." else "")].

Definition test4 : M unit :=
  print_section "Test 4: GET /api/conversations/<id> (Get Conversation)" ;;
  conv_details <- request_json (get_conversation_request client conversation_id) ;;
  workspace <- get conv_details "workspace" (text "N/A") ;;
  print [Text "Conversation workspace: "; Value workspace] ;;
  log <- get conv_details "log" (JArray []) ;;
  n <- len log ;;
  print [Text "Number of messages: "; Count n] ;;
  print [Text "Messages:"] ;;
  log <- get conv_details "log" (JArray []) ;;
  items <- iter log ;;
  for_each items test4_message.

(** The body of the loop over the messages of Test 5. *)
Definition test5_message (msg : json) : M unit :=
  role <- get msg "role" (text "unknown") ;;
  content <- get msg "content" (text "") ;;
  shown <- slice_to 200 content ;;
  n <- len content ;;
  print [Text "  ["; Value role; Text "] "; Value shown;
         Text (if Nat.ltb 200 n then "..." else "")].

Definition test5 : M unit :=
  print_section "Test 5: POST /api/conversations/<id>/generate (Generate Response)" ;;
  print [Text "Generating AI response..."] ;;
  try_except
    (response <- request_json
                   (generate_response_request client conversation_id None false) ;;
     print [Text "Generated response(s):"] ;;
     items <- iter response ;;
     for_each items test5_message ;;
     print [Text "SUCCESS: Response generated!"])
    any_exception
    (fun e =>
       print [Text "Note: Generation may require API keys or model configuration."] ;;
       print [Text "Error: "; Message e]).

(** The line Test 6 prints for a chunk. *)
Definition chunk_line (f : Main.fields) : line :=
  [Text "  ["; Value (Main.role f); Text ", stored=";
   Value (Main.stored f); Text "] "; Value (Main.content f)].

(** The body of the loop over the chunks of Test 6. *)
Definition test6_chunk (chunk : json) : M unit :=
  f <- lift (Main.read_chunk chunk) ;;
  print (chunk_line f).

(** [for chunk in <generator>: body(chunk)], from the line the generator
    stands at: the loop of the generator and the loop of its consumer
    take turns, one chunk at a time. *)
Fixpoint for_chunks (lines : list bytes) (fin : option exn)
         (body : json -> M unit) : M unit :=
  match lines with
  | [] => match fin with None => ret tt | Some e => raise (Lib e) end
  | l :: rest =>
    match loop_body Json.loads l with
    | Raise e => raise (Lib e)
    | Return None => for_chunks rest fin body
    | Return (Some (Printed t)) => print [Chars t] ;; for_chunks rest fin body
    | Return (Some (Yield chunk)) => body chunk ;; for_chunks rest fin body
    end
  end.

(** [for chunk in client.generate_response_stream(logfile): body(chunk)]:
    the request is sent when the loop asks for the first chunk. *)
Definition for_stream (logfile : str) (body : json -> M unit) : M unit :=
  fun w =>
    let rq := generate_response_stream_request client logfile None in
    let w' := {| sent := sent w ++ [rq]; printed := printed w |} in
    match stream_post server client logfile None with
    | Raise e => (Err (Lib e), w')
    | Return r =>
      match raise_for_status r with
      | Raise e => (Err (Lib e), w')
      | Return _ => for_chunks (body_lines r) (body_end r) body w'
      end
    end.

Definition factorial_request : str :=
  str_of "Write a simple Python function to calculate factorial.".

Definition test6 : M unit :=
  print_section "Test 6: Streaming Generation Demo" ;;
  print [Text "Adding a new user message..."] ;;
  request_json (add_message_request client conversation_id (str_of "user")
                                    factorial_request default_branch) ;;
  print [Text "Starting streaming generation..."] ;;
  try_except
    (print [Text "Response chunks:"] ;;
     for_stream conversation_id test6_chunk ;;
     print [Text "SUCCESS: Streaming completed!"])
    any_exception
    (fun e =>
       print [Text "Note: Streaming generation may require API keys or model configuration."] ;;
       print [Text "Error: "; Message e]).

Definition closing : M unit :=
  print_section "Tutorial Complete!" ;;
  print [Text nl; Text "API Endpoints demonstrated:"] ;;
  print [Text "  1. GET /api - Server health check"] ;;
  print [Text "  2. GET /api/conversations - List conversations"] ;;
  print [Text "  3. PUT /api/conversations/<id> - Create conversation"] ;;
  print [Text "  4. GET /api/conversations/<id> - Get conversation details"] ;;
  print [Text "  5. POST /api/conversations/<id>/generate - Generate response"] ;;
  print [Text "  6. Streaming generation with POST /api/conversations/<id>/generate"] ;;
  print [Text nl; Text "Next steps:"] ;;
  print [Text "  - Set GPTME_SERVER_TOKEN to enable authentication"] ;;
  print [Text "  - Set MODEL environment variable to configure the LLM"] ;;
  print [Text "  - Visit http://localhost:11130 for the web UI"].

(** The body of the [try] statement of [main]. *)
Definition tests : M unit :=
  go <- test1 ;;
  if go : bool
  then test2 ;; test3 ;; test4 ;; test5 ;; test6 ;; closing
  else ret tt.

Definition main : M unit :=
  print_section "GPTMe Server API Tutorial PoC" ;;
  print [Text "Connecting to server at: http://localhost:11130"] ;;
  print [Text nl; Text "Note: This script requires the gptme-server to be running."] ;;
  print [Text "Start it with: docker run -p 11130:8000 gptme-server:latest"] ;;
  try_except
    tests
    any_exception
    (fun e =>
       if is_http_error e
       then print [Text "HTTP Error: "; Message e]
       else print [Text "Unexpected error: "; Message e]).

(** The seven requests of [main], in the order of the script. *)
Definition all_requests : list request :=
  [ get_api_root_request client;
    get_conversations_request client 5;
    create_conversation_request client conversation_id
                                (Some initial_messages) None;
    get_conversation_request client conversation_id;
    generate_response_request client conversation_id None false;
    add_message_request client conversation_id (str_of "user")
                        factorial_request default_branch;
    generate_response_stream_request client conversation_id None ].

Definition start : world := {| sent := []; printed := [] |}.

End Main.

(** *** What a part of the script does to the world *)

(** [m] sends the requests [rqs], whatever its outcome, and prints lines
    that satisfy [ok]. *)
Definition acts {A : Type} (ok : line -> Prop) (rqs : list request)
           (m : M A) : Prop :=
  forall w, exists ls,
      snd (m w) = {| sent := sent w ++ rqs; printed := printed w ++ ls |} /\
      Forall ok ls.

Definition never_raises {A : Type} (m : M A) : Prop :=
  forall w, exists a, fst (m w) = Ok a.



(** The title line of the last section of [main]. *)
Definition tutorial_complete : line := [Text "  "; Text "Tutorial Complete!"].

Definition not_the_title (l : line) : Prop := l <> tutorial_complete.

(** [m] sends [first], and then, unless it raises, [second]: it raises
    only before the requests of [second]. Its lines satisfy [ok]. *)
Definition acts_then {A : Type} (ok : line -> Prop)
           (first second : list request) (m : M A) : Prop :=
  forall w, exists ls,
      Forall ok ls /\
      ((exists e,
           m w = (Err e, {| sent := sent w ++ first;
                            printed := printed w ++ ls |})) \/
       (exists a,
           m w = (Ok a, {| sent := sent w ++ first ++ second;
                           printed := printed w ++ ls |}))).

(** *** Servers for the examples *)

(** No server is listening. *)
Definition down : request -> result Reply :=
  fun _ => Raise ConnectionError.

Definition reply_200 (v : json) (lines : list bytes) : result Reply :=
  Return {| response := {| status_code := 200; body_lines := lines;
                           body_end := None |};
            json_of := Return v |}.

(** A server that answers every request with status 200: an object for
    the requests on one conversation and for the root, a list of messages
    for the rest, and the three lines of the specification as the body of
    a streamed answer. *)
Definition friendly : request -> result Reply :=
  fun rq =>
    if stream rq then reply_200 JNull Example.spec_lines
    else if str_eqb (url rq) (generate_url client conversation_id)
         then reply_200 (JArray [Example.chunk_hi]) []
    else if str_eqb (url rq) (url (get_conversations_request client 5))
         then reply_200 (JArray [text "tutorial-conversation"]) []
    else reply_200
           (JObject [ (str_of "message", text "ok");
                      (str_of "log", JArray [Example.chunk_no_stored]) ]) [].

(** The friendly server behind a connection that fails for the root. *)
Definition no_root : request -> result Reply :=
  fun rq =>
    if str_eqb (url rq) (url (get_api_root_request client))
    then Raise ConnectionError
    else friendly rq.

(** A message whose content has 150 characters, and one with 250. *)
Definition long_message (n : nat) : json :=
  JObject [ (str_of "role", text "user");
            (str_of "content", JString (repeat 120 n)) ].


(** The friendly server with a generation endpoint that answers 500. *)
Definition no_model : request -> result Reply :=
  fun rq =>
    if str_eqb (url rq) (generate_url client conversation_id)
    then Return {| response := {| status_code := 500; body_lines := [];
                                  body_end := None |};
                   json_of := Raise JSONDecodeError |}
    else friendly rq.

End Script.

(** * Properties *)

(** ** UTF-8 decoding of the lines the claims speak of *)

Lemma decode_points_ascii (line : bytes) :
  Forall (fun b => Byte.to_N b < 128) line ->
  Utf8.decode_points line = Some (map Byte.to_N line).
Proof.
  induction 1 as [|b line Hb _ IH]; [reflexivity|].
  cbn [Utf8.decode_points map].
  apply N.ltb_lt in Hb. rewrite Hb, IH. reflexivity.
Qed.

Lemma decode_nil_inv (line : bytes) (s : str) :
  Utf8.decode line = Return s -> startswith s (str_of "data: ") = true ->
  truthy line = true.
Proof.
  destruct line as [|b line]; [|reflexivity].
  cbv [Utf8.decode Utf8.decode_points]. intros [= <-]. discriminate.
Qed.

Section DecoderFacts.

Variable json_loads : str -> result json.

(** *** The loop body, case by case *)

Lemma loop_body_empty : loop_body json_loads [] = Return None.
Proof. reflexivity. Qed.

Lemma loop_body_data (line : bytes) (s : str) :
  Utf8.decode line = Return s -> startswith s prefix = true ->
  loop_body json_loads line =
  match json_loads (slice_from 6 s) with
  | Return v => Return (Some (Yield v))
  | Raise JSONDecodeError =>
    Return (Some (Printed (failed_to_parse (slice_from 6 s))))
  | Raise e => Raise e
  end.
Proof.
  intros Hd Hp. unfold loop_body.
  rewrite (decode_nil_inv line s Hd Hp), Hd, Hp. reflexivity.
Qed.

Lemma loop_body_other (line : bytes) (s : str) :
  Utf8.decode line = Return s -> startswith s prefix = false ->
  loop_body json_loads line = Return None.
Proof.
  intros Hd Hp. unfold loop_body.
  destruct (truthy line); [|reflexivity]. rewrite Hd, Hp. reflexivity.
Qed.

(** *** The loop over a concatenation *)

Lemma for_lines_cons (line : bytes) (rest : list bytes) (fin : option exn) :
  for_lines json_loads (line :: rest) fin =
  match loop_body json_loads line with
  | Raise e => ([], Some e)
  | Return None => for_lines json_loads rest fin
  | Return (Some ev) =>
    (ev :: fst (for_lines json_loads rest fin),
     snd (for_lines json_loads rest fin))
  end.
Proof.
  cbn [for_lines].
  destruct (loop_body json_loads line) as [[ev|]|e]; try reflexivity.
  destruct (for_lines json_loads rest fin); reflexivity.
Qed.

Lemma for_lines_app (xs ys : list bytes) (fin : option exn) :
  for_lines json_loads (xs ++ ys) fin =
  match snd (for_lines json_loads xs None) with
  | None => (fst (for_lines json_loads xs None)
               ++ fst (for_lines json_loads ys fin),
             snd (for_lines json_loads ys fin))
  | Some e => for_lines json_loads xs None
  end.
Proof.
  induction xs as [|x xs IH].
  - cbn. destruct (for_lines json_loads ys fin); reflexivity.
  - rewrite <- app_comm_cons, !for_lines_cons.
    destruct (loop_body json_loads x) as [[ev|]|e]; cbn [fst snd];
      try reflexivity.
    + rewrite IH.
      destruct (for_lines json_loads xs None) as [l [e'|]]; reflexivity.
    + exact IH.
Qed.

Lemma passes_ends (xs : list bytes) (fin : option exn) :
  passes json_loads xs -> snd (for_lines json_loads xs fin) = fin.
Proof.
  induction 1 as [|x xs [r Hr] _ IH]; [reflexivity|].
  rewrite for_lines_cons, Hr. destruct r; cbn [snd]; exact IH.
Qed.

Lemma for_lines_app_passes (xs ys : list bytes) (fin : option exn) :
  passes json_loads xs ->
  for_lines json_loads (xs ++ ys) fin =
  (fst (for_lines json_loads xs None) ++ fst (for_lines json_loads ys fin),
   snd (for_lines json_loads ys fin)).
Proof.
  intros H. rewrite for_lines_app, (passes_ends xs None H). reflexivity.
Qed.

Lemma processed_passes (xs : list bytes) :
  passes json_loads xs -> processed json_loads xs = xs.
Proof.
  induction 1 as [|x xs [r Hr] _ IH]; [reflexivity|].
  cbn [processed]. rewrite Hr, IH. reflexivity.
Qed.

Lemma chunks_processed (lines : list bytes) (fin : option exn) :
  chunks (fst (for_lines json_loads lines fin)) =
  filter_map (line_chunk json_loads) (processed json_loads lines).
Proof.
  induction lines as [|x xs IH]; [reflexivity|].
  rewrite for_lines_cons. cbn [processed].
  assert (Hx : line_chunk json_loads x =
               match loop_body json_loads x with
               | Return (Some (Yield v)) => Some v
               | _ => None
               end) by reflexivity.
  destruct (loop_body json_loads x) as [[[v|t]|]|e] eqn:E;
    cbn [fst chunks filter_map]; rewrite Hx, ?IH; reflexivity.
Qed.


Lemma for_lines_skip (pre : list bytes) (line : bytes) (post : list bytes)
      (fin : option exn) :
  loop_body json_loads line = Return None ->
  for_lines json_loads (pre ++ line :: post) fin =
  for_lines json_loads (pre ++ post) fin.
Proof.
  intros Hl. induction pre as [|x pre IH].
  - cbn [app]. rewrite for_lines_cons, Hl. reflexivity.
  - rewrite <- !app_comm_cons, !for_lines_cons, IH. reflexivity.
Qed.

Lemma for_lines_event (pre : list bytes) (line : bytes) (post : list bytes)
      (fin : option exn) (ev : event) :
  loop_body json_loads line = Return (Some ev) ->
  passes json_loads pre ->
  for_lines json_loads (pre ++ line :: post) fin =
  (fst (for_lines json_loads pre None)
     ++ ev :: fst (for_lines json_loads post fin),
   snd (for_lines json_loads post fin)).
Proof.
  intros Hl Hpre. rewrite (for_lines_app_passes pre (line :: post) fin Hpre).
  rewrite for_lines_cons, Hl. reflexivity.
Qed.

Lemma space_line_skipped (line : bytes) :
  forallb is_space line = true -> loop_body json_loads line = Return None.
Proof.
  intros Hs. destruct line as [|b line]; [reflexivity|].
  apply (loop_body_other (b :: line) (map Byte.to_N (b :: line))).
  - unfold Utf8.decode. rewrite decode_points_ascii; [reflexivity|].
    apply Forall_forall. intros c Hc.
    rewrite forallb_forall in Hs. specialize (Hs c Hc).
    destruct c; try discriminate Hs; reflexivity.
  - cbn [forallb] in Hs. apply andb_prop in Hs. destruct Hs as [Hb _].
    destruct b; try discriminate Hb; reflexivity.
Qed.

(** *** The claims about single lines *)

(** C1, as amended. A line that decodes to [data: ] followed by a text
    [json.loads] accepts, and that the loop gets to, gives exactly one
    event, the yield of the value parsed from what follows the six
    characters of the prefix: in the loop run to its end, behind lines
    that raise nothing, and for the call of [next] that reads the line.
    The chunks of a run are those of the lines the loop gets to, in the
    order of the lines: the output is the input, filtered. *)
Theorem data_line_yields_its_value (line : bytes) (s : str) (v : json) :
  Utf8.decode line = Return s ->
  startswith s prefix = true ->
  json_loads (slice_from 6 s) = Return v ->
  loop_body json_loads line = Return (Some (Yield v)) /\
  (forall pre post fin,
      passes json_loads pre ->
      for_lines json_loads (pre ++ line :: post) fin =
      (fst (for_lines json_loads pre None)
         ++ Yield v :: fst (for_lines json_loads post fin),
       snd (for_lines json_loads post fin))) /\
  (forall post fin h out,
      let r := next json_loads
                    {| frame := Suspended (line :: post) fin;
                       held := h; stdout := out |} in
      fst r = Yielded v /\
      frame (snd r) = Suspended post fin /\
      stdout (snd r) = out) /\
  (forall lines fin,
      chunks (fst (for_lines json_loads lines fin)) =
      filter_map (line_chunk json_loads) (processed json_loads lines)) /\
  (forall lines fin,
      passes json_loads lines ->
      chunks (fst (for_lines json_loads lines fin)) =
      filter_map (line_chunk json_loads) lines).
Proof.
  intros Hd Hp Hv.
  assert (Hl : loop_body json_loads line = Return (Some (Yield v))).
  { rewrite (loop_body_data line s Hd Hp), Hv. reflexivity. }
  split; [exact Hl|]. split; [|split; [|split]].
  - intros pre post fin Hpre. exact (for_lines_event pre line post fin _ Hl Hpre).
  - intros post fin h out. cbn [next frame resume stdout]. rewrite Hl.
    repeat split.
  - exact chunks_processed.
  - intros lines fin Hpass.
    rewrite chunks_processed, (processed_passes lines Hpass). reflexivity.
Qed.

(** C2, as amended. A line that decodes to [data: ] followed by a text on
    which [json.loads] raises [JSONDecodeError] yields nothing and raises
    nothing: its one event is the printing of one diagnostic, and the
    loop goes on with the lines that follow, whose events and end are
    what they are without that line. *)
Theorem malformed_line_is_reported_and_skipped (line : bytes) (s : str) :
  Utf8.decode line = Return s ->
  startswith s prefix = true ->
  json_loads (slice_from 6 s) = Raise JSONDecodeError ->
  loop_body json_loads line =
  Return (Some (Printed (failed_to_parse (slice_from 6 s)))) /\
  line_chunk json_loads line = None /\
  line_diagnostic json_loads line = Some (failed_to_parse (slice_from 6 s)) /\
  (forall pre post fin,
      passes json_loads pre ->
      for_lines json_loads (pre ++ line :: post) fin =
      (fst (for_lines json_loads pre None)
         ++ Printed (failed_to_parse (slice_from 6 s))
         :: fst (for_lines json_loads post fin),
       snd (for_lines json_loads post fin))) /\
  (forall pre post fin,
      passes json_loads pre ->
      chunks (fst (for_lines json_loads (pre ++ line :: post) fin)) =
      chunks (fst (for_lines json_loads (pre ++ post) fin))) /\
  (forall post fin h out,
      next json_loads
           {| frame := Suspended (line :: post) fin;
              held := h; stdout := out |} =
      next json_loads
           {| frame := Suspended post fin; held := h;
              stdout := out ++ [failed_to_parse (slice_from 6 s)] |}).
Proof.
  intros Hd Hp Hv.
  assert (Hl : loop_body json_loads line =
               Return (Some (Printed (failed_to_parse (slice_from 6 s))))).
  { rewrite (loop_body_data line s Hd Hp), Hv. reflexivity. }
  split; [exact Hl|]. split; [|split; [|split; [|split]]].
  - unfold line_chunk. rewrite Hl. reflexivity.
  - unfold line_diagnostic. rewrite Hl. reflexivity.
  - intros pre post fin Hpre. exact (for_lines_event pre line post fin _ Hl Hpre).
  - intros pre post fin Hpre.
    rewrite (for_lines_event pre line post fin _ Hl Hpre).
    rewrite (for_lines_app_passes pre post fin Hpre). cbn [fst].
    induction (fst (for_lines json_loads pre None)) as [|[c|t] evs IH];
      cbn [app chunks]; rewrite ?IH; reflexivity.
  - intros post fin h out. cbn [next frame resume stdout]. rewrite Hl.
    reflexivity.
Qed.

(** C3, as amended. An empty line, a line of white space, and a line
    that decodes as UTF-8 to a text that does not begin with [data: ]
    give no event and raise nothing: the run is the run without that
    line. *)
Theorem other_line_is_skipped (line : bytes) :
  (line = [] \/
   forallb is_space line = true \/
   exists s, Utf8.decode line = Return s /\ startswith s prefix = false) ->
  loop_body json_loads line = Return None /\
  (forall pre post fin,
      for_lines json_loads (pre ++ line :: post) fin =
      for_lines json_loads (pre ++ post) fin) /\
  (forall post fin h out,
      next json_loads
           {| frame := Suspended (line :: post) fin;
              held := h; stdout := out |} =
      next json_loads
           {| frame := Suspended post fin; held := h; stdout := out |}).
Proof.
  intros H.
  assert (Hl : loop_body json_loads line = Return None).
  { destruct H as [-> | [Hs | (s & Hd & Hp)]].
    - exact loop_body_empty.
    - exact (space_line_skipped line Hs).
    - exact (loop_body_other line s Hd Hp). }
  split; [exact Hl|]. split.
  - intros pre post fin. exact (for_lines_skip pre line post fin Hl).
  - intros post fin h out. cbn [next frame resume stdout]. rewrite Hl.
    reflexivity.
Qed.

(** *** One [next] at a time *)

Lemma pull_succ (n : nat) (g : generator) :
  pull json_loads (S n) g =
  (fst (next json_loads g)
     :: fst (pull json_loads n (snd (next json_loads g))),
   snd (pull json_loads n (snd (next json_loads g)))).
Proof.
  cbn [pull]. destruct (next json_loads g) as [o g1]. cbn [fst snd].
  destruct (pull json_loads n g1); reflexivity.
Qed.

Lemma pull_finished (n : nat) (g : generator) :
  frame g = Finished -> frame (snd (pull json_loads n g)) = Finished.
Proof.
  revert g. induction n as [|n IH]; intros g Hg; [exact Hg|].
  rewrite pull_succ. cbn [snd]. apply IH.
  unfold next. rewrite Hg. exact Hg.
Qed.

(** The loop either stops at a [yield], having read a front part of the
    lines and nothing of what follows it, or ends the generator. *)
Lemma resume_cases (lines : list bytes) (fin : option exn) (out : list str) :
  (exists v consumed unread out',
      lines = consumed ++ unread /\
      forall rest fin',
        resume json_loads (consumed ++ rest) fin' out =
        (Yielded v,
         {| frame := Suspended rest fin'; held := true; stdout := out' |}))
  \/ frame (snd (resume json_loads lines fin out)) = Finished.
Proof.
  revert out. induction lines as [|line lines IH]; intros out.
  - right. cbn. destruct fin; reflexivity.
  - cbn [resume].
    destruct (loop_body json_loads line) as [[[v|t]|]|e] eqn:E.
    + left. exists v, [line], lines, out. split; [reflexivity|].
      intros rest fin'. cbn [app resume]. rewrite E. reflexivity.
    + destruct (IH (out ++ [t])) as [(v & c & u & o' & -> & Hr)|Hf].
      * left. exists v, (line :: c), u, o'. split; [reflexivity|].
        intros rest fin'. cbn [app resume]. rewrite E. apply Hr.
      * right. exact Hf.
    + destruct (IH out) as [(v & c & u & o' & -> & Hr)|Hf].
      * left. exists v, (line :: c), u, o'. split; [reflexivity|].
        intros rest fin'. cbn [app resume]. rewrite E. apply Hr.
      * right. exact Hf.
    + right. reflexivity.
Qed.

Lemma pull_suspended (n : nat) :
  forall lines fin h out outs unread fin0 h' out',
    pull json_loads n
         {| frame := Suspended lines fin; held := h; stdout := out |} =
    (outs, {| frame := Suspended unread fin0; held := h'; stdout := out' |}) ->
    exists consumed,
      lines = consumed ++ unread /\
      Forall (fun o => exists v, o = Yielded v) outs /\
      forall rest fin',
        pull json_loads n
             {| frame := Suspended (consumed ++ rest) fin';
                held := h; stdout := out |} =
        (outs, {| frame := Suspended rest fin'; held := h'; stdout := out' |}).
Proof.
  induction n as [|n IH]; intros lines fin h out outs unread fin0 h' out' H.
  - cbn [pull] in H. injection H as <- <- <- <- <-.
    exists []. split; [reflexivity|]. split; [constructor|reflexivity].
  - rewrite pull_succ in H. cbn [next frame stdout] in H.
    destruct (resume_cases lines fin out)
      as [(v & c & u & o1 & -> & Hr)|Hf].
    + rewrite (Hr u fin) in H. cbn [fst snd] in H.
      destruct (pull json_loads n
                  {| frame := Suspended u fin; held := true; stdout := o1 |})
        as [outs1 g1] eqn:E1.
      cbn [fst snd] in H. injection H as <- ->.
      destruct (IH _ _ _ _ _ _ _ _ _ E1) as (c2 & -> & Hy & Hp).
      exists (c ++ c2). split; [apply app_assoc|].
      split; [constructor; [exists v; reflexivity|exact Hy]|].
      intros rest fin'. rewrite pull_succ. cbn [next frame stdout].
      rewrite <- app_assoc, (Hr (c2 ++ rest) fin'). cbn [fst snd].
      rewrite (Hp rest fin'). reflexivity.
    + exfalso.
      pose proof (pull_finished n _ Hf) as Hn.
      apply (f_equal snd) in H. cbn [snd] in H. rewrite H in Hn.
      discriminate Hn.
Qed.

(** C6. When [n] calls of [next] leave the generator standing at a
    [yield], the lines of the response split into a front part, which
    ends at the line that gave the last chunk, and the lines not read.
    The outcomes of these calls and what was printed depend on the
    front part only: whatever lines follow it, and however the body
    ends after them, the [n] calls give the same outcomes and leave all
    of those lines in the iterator, not read and not parsed. *)
Theorem first_chunks_read_only_a_prefix
        (n : nat) (status : Z) (lines : list bytes) (fin : option exn)
        (out : list str) (outs : list outcome) (unread : list bytes)
        (fin0 : option exn) (h' : bool) (out' : list str) :
  pull json_loads n
       (call (Return {| status_code := status; body_lines := lines;
                        body_end := fin |}) out) =
  (outs, {| frame := Suspended unread fin0; held := h'; stdout := out' |}) ->
  exists consumed,
    lines = consumed ++ unread /\
    Forall (fun o => exists v, o = Yielded v) outs /\
    forall rest fin',
      pull json_loads n
           (call (Return {| status_code := status;
                            body_lines := consumed ++ rest;
                            body_end := fin' |}) out) =
      (outs, {| frame := Suspended rest fin'; held := h'; stdout := out' |}).
Proof.
  destruct n as [|n]; intros H; [discriminate H|].
  rewrite pull_succ in H.
  cbn [next call frame stdout body_lines body_end] in H.
  unfold raise_for_status in H. cbn [status_code] in H.
  destruct ((400 <=? status)%Z && (status <? 600)%Z) eqn:Es.
  - exfalso. cbn [fst snd] in H.
    pose proof (pull_finished n
      {| frame := Finished; held := false; stdout := out |} eq_refl) as Hn.
    apply (f_equal snd) in H. cbn [snd] in H. rewrite H in Hn.
    discriminate Hn.
  - destruct (resume_cases lines fin out)
      as [(v & c & u & o1 & -> & Hr)|Hf].
    + rewrite (Hr u fin) in H. cbn [fst snd] in H.
      destruct (pull json_loads n
                  {| frame := Suspended u fin; held := true; stdout := o1 |})
        as [outs1 g1] eqn:E1.
      cbn [fst snd] in H. injection H as <- ->.
      destruct (pull_suspended n _ _ _ _ _ _ _ _ _ E1)
        as (c2 & -> & Hy & Hp).
      exists (c ++ c2). split; [apply app_assoc|]. split.
      * constructor; [exists v; reflexivity|exact Hy].
      * intros rest fin'. rewrite pull_succ.
        cbn [next call frame stdout body_lines body_end].
        unfold raise_for_status. cbn [status_code]. rewrite Es.
        rewrite <- app_assoc, (Hr (c2 ++ rest) fin'). cbn [fst snd].
        rewrite (Hp rest fin'). reflexivity.
    + exfalso.
      pose proof (pull_finished n _ Hf) as Hn.
      apply (f_equal snd) in H. cbn [snd] in H. rewrite H in Hn.
      discriminate Hn.
Qed.

(** *** The loop and the generator give the same run *)

Lemma chunks_app (a b : list event) : chunks (a ++ b) = chunks a ++ chunks b.
Proof.
  induction a as [|[v|t] a IH]; cbn [app chunks]; rewrite ?IH; reflexivity.
Qed.

Lemma diagnostics_app (a b : list event) :
  diagnostics (a ++ b) = diagnostics a ++ diagnostics b.
Proof.
  induction a as [|[v|t] a IH]; cbn [app diagnostics]; rewrite ?IH;
    reflexivity.
Qed.

(** A caller that calls [next] until the generator ends gets the chunks
    of [for_lines], then its end, and finds its diagnostics printed. *)
Lemma pull_for_lines (lines : list bytes) (fin : option exn) :
  forall h out,
  exists h',
    pull json_loads
         (S (List.length (chunks (fst (for_lines json_loads lines fin)))))
         {| frame := Suspended lines fin; held := h; stdout := out |} =
    (map Yielded (chunks (fst (for_lines json_loads lines fin)))
         ++ [last_outcome (snd (for_lines json_loads lines fin))],
     {| frame := Finished; held := h';
        stdout := out ++ diagnostics (fst (for_lines json_loads lines fin)) |}).
Proof.
  induction lines as [|line lines IH]; intros h out.
  - exists false. cbn. rewrite app_nil_r. destruct fin; reflexivity.
  - rewrite for_lines_cons, pull_succ. cbn [next frame stdout resume].
    destruct (loop_body json_loads line) as [[[v|t]|]|e] eqn:E.
    + cbn [fst snd chunks diagnostics List.length map app].
      destruct (IH true out) as [h' A]. exists h'. rewrite A. reflexivity.
    + cbn [fst snd chunks diagnostics].
      destruct (IH h (out ++ [t])) as [h' A]. exists h'.
      rewrite pull_succ in A. cbn [next frame stdout] in A.
      rewrite A, <- app_assoc. reflexivity.
    + destruct (IH h out) as [h' A]. exists h'.
      rewrite pull_succ in A. cbn [next frame stdout] in A. exact A.
    + exists false. cbn. rewrite app_nil_r. reflexivity.
Qed.

(** *** Failures of the request and of the read *)

Lemma for_lines_read_failure (lines : list bytes) (e : exn) :
  exists e', snd (for_lines json_loads lines (Some e)) = Some e'.
Proof.
  induction lines as [|line lines IH]; [exists e; reflexivity|].
  rewrite for_lines_cons.
  destruct (loop_body json_loads line) as [[ev|]|e1]; cbn [snd];
    [exact IH|exact IH|exists e1; reflexivity].
Qed.

(** C5, as amended. A failure of the HTTP layer reaches the caller as
    the exception the HTTP layer raised, and no chunk is yielded after
    it. When [requests.post] raises, or the status is an error status
    (400 to 599), the first [next] raises and the run has no event at
    all. When the read fails after some lines, the run never ends
    cleanly; if no line raised before, its events are those of the
    lines received before the failure, and it ends with the exception
    of the read. *)
Theorem http_failure_reaches_the_caller :
  (forall e out,
      generate_response_stream json_loads (Raise e) = ([], Some e) /\
      fst (next json_loads (call (Raise e) out)) = Raised e) /\
  (forall response out,
      (400 <= status_code response < 600)%Z ->
      generate_response_stream json_loads (Return response) =
      ([], Some (HTTPError (status_code response))) /\
      fst (next json_loads (call (Return response) out)) =
      Raised (HTTPError (status_code response))) /\
  (forall response e,
      raise_for_status response = Return tt ->
      body_end response = Some e ->
      (exists e',
          snd (generate_response_stream json_loads (Return response))
          = Some e') /\
      (passes json_loads (body_lines response) ->
       generate_response_stream json_loads (Return response) =
       (fst (for_lines json_loads (body_lines response) None), Some e))).
Proof.
  split; [|split].
  - intros e out. split; reflexivity.
  - intros response out Hs.
    assert (E : raise_for_status response
                = Raise (HTTPError (status_code response))).
    { unfold raise_for_status.
      destruct (Z.leb_spec 400 (status_code response)); [|lia].
      destruct (Z.ltb_spec (status_code response) 600); [|lia].
      reflexivity. }
    unfold generate_response_stream, next. cbn [call frame].
    rewrite E. split; reflexivity.
  - intros response e Hs He. unfold generate_response_stream.
    rewrite Hs, He. split.
    + apply for_lines_read_failure.
    + intros Hp.
      pose proof (for_lines_app_passes (body_lines response) [] (Some e) Hp)
        as A.
      rewrite !app_nil_r in A. exact A.
Qed.

(** *** Line sequences *)

(** C9, as amended. When no line of [xs] makes the loop raise, the run
    over [xs ++ ys] is the run over [xs] followed by the run over [ys]:
    events, chunks, diagnostics and end. Empty lines, lines without the
    prefix and lines whose payload [json.loads] rejects, once decoded as
    UTF-8, are such lines. *)
Theorem decoding_distributes_over_append
        (xs ys : list bytes) (fin : option exn) :
  (passes json_loads xs ->
   for_lines json_loads (xs ++ ys) fin =
   (fst (for_lines json_loads xs None) ++ fst (for_lines json_loads ys fin),
    snd (for_lines json_loads ys fin)) /\
   chunks (fst (for_lines json_loads (xs ++ ys) fin)) =
   chunks (fst (for_lines json_loads xs None))
     ++ chunks (fst (for_lines json_loads ys fin)) /\
   diagnostics (fst (for_lines json_loads (xs ++ ys) fin)) =
   diagnostics (fst (for_lines json_loads xs None))
     ++ diagnostics (fst (for_lines json_loads ys fin))) /\
  (forall line s,
      Utf8.decode line = Return s ->
      startswith s prefix = false \/
      json_loads (slice_from 6 s) = Raise JSONDecodeError ->
      passes json_loads [line]) /\
  passes json_loads [[]].
Proof.
  split; [|split].
  - intros Hp. rewrite (for_lines_app_passes xs ys fin Hp). cbn [fst].
    rewrite chunks_app, diagnostics_app. repeat split.
  - intros line s Hd H. constructor; [|constructor].
    destruct (startswith s prefix) eqn:Hs.
    + destruct H as [H|H]; [discriminate H|].
      rewrite (loop_body_data line s Hd Hs), H. eexists; reflexivity.
    + rewrite (loop_body_other line s Hd Hs). eexists; reflexivity.
  - constructor; [|constructor]. exists None. reflexivity.
Qed.


End DecoderFacts.

(** ** The consumer in [main] *)

Lemma read_chunk_object (d : list (str * json)) :
  Main.read_chunk (JObject d) =
  Return {| Main.role :=
              match dict_lookup d (str_of "role") with
              | Some v => v
              | None => JString (str_of "unknown")
              end;
            Main.content :=
              match dict_lookup d (str_of "content") with
              | Some v => v
              | None => JString []
              end;
            Main.stored :=
              match dict_lookup d (str_of "stored") with
              | Some v => v
              | None => JBool false
              end |}.
Proof. reflexivity. Qed.

(** C8, as amended. For a chunk that is a JSON object, the loop of [main]
    binds [stored] to the value of the key [stored] when the object has
    it, whatever its type, and to [False] when it has not. So [stored] is
    [False] for an object without the key, and the boolean of the payload
    when the payload gives a boolean. This is so for the chunk a line of
    the stream yields. *)
Theorem stored_defaults_to_false (d : list (str * json)) :
  (exists f,
      Main.read_chunk (JObject d) = Return f /\
      Main.stored f = match dict_lookup d (str_of "stored") with
                      | Some v => v
                      | None => JBool false
                      end) /\
  (dict_lookup d (str_of "stored") = None ->
   exists f, Main.read_chunk (JObject d) = Return f /\
             Main.stored f = JBool false) /\
  (forall b, dict_lookup d (str_of "stored") = Some (JBool b) ->
             exists f, Main.read_chunk (JObject d) = Return f /\
                       Main.stored f = JBool b) /\
  (forall json_loads line s,
      Utf8.decode line = Return s ->
      startswith s prefix = true ->
      json_loads (slice_from 6 s) = Return (JObject d) ->
      dict_lookup d (str_of "stored") = None ->
      exists f,
        for_lines json_loads [line] None = ([Yield (JObject d)], None) /\
        Main.read_chunk (JObject d) = Return f /\
        Main.stored f = JBool false).
Proof.
  split; [|split; [|split]].
  - eexists. split; [apply read_chunk_object|reflexivity].
  - intros H. eexists. split; [apply read_chunk_object|].
    cbn [Main.stored]. rewrite H. reflexivity.
  - intros b H. eexists. split; [apply read_chunk_object|].
    cbn [Main.stored]. rewrite H. reflexivity.
  - intros json_loads line s Hd Hp Hv H. eexists.
    split; [|split; [apply read_chunk_object|]].
    + rewrite for_lines_cons, (loop_body_data json_loads line s Hd Hp), Hv.
      reflexivity.
    + cbn [Main.stored]. rewrite H. reflexivity.
Qed.

(** ** The example of the specification *)

Import Example.

(** C4. On the three lines of the example the method yields two chunks,
    [chunk_hi] then [chunk_there], prints nothing and ends; a caller that
    calls [next] three times gets the two chunks and the end of the
    iteration. *)
Theorem three_lines_give_two_chunks :
  generate_response_stream Json.loads (ok spec_lines None) =
  ([Yield chunk_hi; Yield chunk_there], None) /\
  chunks (fst (for_lines Json.loads spec_lines None)) =
  [chunk_hi; chunk_there] /\
  diagnostics (fst (for_lines Json.loads spec_lines None)) = [] /\
  pull Json.loads 3 (call (ok spec_lines None) []) =
  ([Yielded chunk_hi; Yielded chunk_there; StopIteration],
   {| frame := Finished; held := false; stdout := [] |}).
Proof. repeat split; vm_compute; reflexivity. Qed.

(** ** Inputs on which the claims as written fail *)

(** C1 as written fails: behind the line [b'\xff'], the line
    [b'data: 1'], whose payload [json.loads] accepts, gives no chunk: the
    run has ended with [UnicodeDecodeError] before the loop gets to
    it. *)
Lemma well_formed_line_behind_a_raising_line_yields_nothing :
  Utf8.decode data_1 = Return (str_of "data: 1") /\
  startswith (str_of "data: 1") prefix = true /\
  Json.loads (slice_from 6 (str_of "data: 1")) = Return (JInt 1) /\
  for_lines Json.loads [not_utf8; data_1] None =
  ([], Some UnicodeDecodeError) /\
  ~ In (JInt 1) (chunks (fst (for_lines Json.loads [not_utf8; data_1] None))).
Proof. repeat split. intros []. Qed.

(** C2 as written fails: the payload of [b'data: ' + b'[' * 5000] is no
    JSON, and [json.loads] fails on it with [RecursionError], which the
    [except] clause does not name: the exception reaches the caller, no
    diagnostic is printed, and the line after it is not read. *)
Lemma deep_nesting_ends_the_stream :
  (exists s, Utf8.decode deep_nesting = Return s /\
             startswith s prefix = true /\
             Json.loads (slice_from 6 s) = Raise RecursionError) /\
  loop_body Json.loads deep_nesting = Raise RecursionError /\
  for_lines Json.loads [deep_nesting; data_1] None =
  ([], Some RecursionError).
Proof.
  split; [|split].
  - exists (map Byte.to_N deep_nesting). repeat split; vm_compute; reflexivity.
  - vm_compute. reflexivity.
  - vm_compute. reflexivity.
Qed.


(** C3 as written fails: the line [b'\xff'] does not begin with the
    prefix, and it makes the method raise [UnicodeDecodeError], also for
    the lines that follow it. *)
Lemma non_utf8_line_raises :
  ~ (forall line : bytes,
        firstn 6 line <> bytes_of "data: " ->
        exists r, loop_body Json.loads line = Return r).
Proof.
  intros H. destruct (H not_utf8) as [r Hr].
  - discriminate.
  - discriminate Hr.
Qed.

(** C5 as written fails: a response whose read fails after the line
    [b'data: 1'] has yielded the chunk [1] before the exception reaches
    the caller. *)
Lemma chunk_before_read_failure :
  generate_response_stream Json.loads
    (ok [data_1] (Some ChunkedEncodingError)) =
  ([Yield (JInt 1)], Some ChunkedEncodingError) /\
  chunks (fst (generate_response_stream Json.loads
                 (ok [data_1] (Some ChunkedEncodingError)))) <> [].
Proof. split; [reflexivity|discriminate]. Qed.

(** C8 as written fails: for the line [b'data: {"stored":"yes"}'] the
    loop of [main] binds [stored] to the string ["yes"], which is not a
    boolean. *)
Lemma stored_need_not_be_boolean :
  for_lines Json.loads [stored_yes] None = ([Yield chunk_stored_yes], None) /\
  (exists f, Main.read_chunk chunk_stored_yes = Return f /\
             Main.stored f = JString (str_of "yes")) /\
  ~ (forall chunk f,
        In (Yield chunk) (fst (for_lines Json.loads [stored_yes] None)) ->
        Main.read_chunk chunk = Return f ->
        exists b, Main.stored f = JBool b).
Proof.
  split; [reflexivity|]. split.
  - eexists. split; reflexivity.
  - intros H.
    destruct (H chunk_stored_yes _ (or_introl eq_refl) eq_refl) as [b Hb].
    discriminate Hb.
Qed.

(** C9 as written fails: with [xs] the line [b'\xff'] and [ys] the line
    [b'data: 1'], the run over [xs ++ ys] yields nothing, and the run over
    [ys] yields [1]. *)
Lemma non_utf8_line_cuts_the_stream :
  ~ (forall xs ys : list bytes,
        chunks (fst (for_lines Json.loads (xs ++ ys) None)) =
        chunks (fst (for_lines Json.loads xs None))
          ++ chunks (fst (for_lines Json.loads ys None))).
Proof.
  intros H. specialize (H [not_utf8] [data_1]). discriminate H.
Qed.

(** ** The theorems at concrete inputs *)

Lemma passes_keep_alive_and_bad : passes Json.loads [keep_alive; data_bad; []].
Proof. repeat constructor; eexists; reflexivity. Defined.

Lemma data_line_yields_its_value_witness :
  Utf8.decode data_1 = Return (str_of "data: 1") /\
  startswith (str_of "data: 1") prefix = true /\
  Json.loads (slice_from 6 (str_of "data: 1")) = Return (JInt 1) /\
  passes Json.loads [keep_alive; data_bad; []] /\
  loop_body Json.loads data_1 = Return (Some (Yield (JInt 1))) /\
  for_lines Json.loads ([keep_alive; data_bad; []] ++ data_1 :: [data_2]) None =
  (fst (for_lines Json.loads [keep_alive; data_bad; []] None)
     ++ Yield (JInt 1) :: fst (for_lines Json.loads [data_2] None),
   snd (for_lines Json.loads [data_2] None)) /\
  chunks (fst (for_lines Json.loads [keep_alive; data_bad; []] None)) =
  filter_map (line_chunk Json.loads) [keep_alive; data_bad; []].
Proof.
  assert (H1 : Utf8.decode data_1 = Return (str_of "data: 1")) by reflexivity.
  assert (H2 : startswith (str_of "data: 1") prefix = true) by reflexivity.
  assert (H3 : Json.loads (slice_from 6 (str_of "data: 1")) = Return (JInt 1))
    by reflexivity.
  destruct (data_line_yields_its_value Json.loads data_1 _ _ H1 H2 H3)
    as (A & B & _ & _ & E).
  split; [exact H1|]. split; [exact H2|]. split; [exact H3|].
  split; [exact passes_keep_alive_and_bad|]. split; [exact A|].
  split; [exact (B _ _ None passes_keep_alive_and_bad)|].
  exact (E _ None passes_keep_alive_and_bad).
Defined.

Lemma malformed_line_is_reported_and_skipped_witness :
  Utf8.decode data_bad = Return (str_of "data: {not valid json}") /\
  startswith (str_of "data: {not valid json}") prefix = true /\
  Json.loads (slice_from 6 (str_of "data: {not valid json}")) =
  Raise JSONDecodeError /\
  passes Json.loads [keep_alive; data_bad; []] /\
  loop_body Json.loads data_bad =
  Return (Some (Printed (str_of "Failed to parse: {not valid json}"))) /\
  for_lines Json.loads ([keep_alive; data_bad; []] ++ data_bad :: [data_2]) None =
  (fst (for_lines Json.loads [keep_alive; data_bad; []] None)
     ++ Printed (str_of "Failed to parse: {not valid json}")
     :: fst (for_lines Json.loads [data_2] None),
   snd (for_lines Json.loads [data_2] None)).
Proof.
  assert (H1 : Utf8.decode data_bad = Return (str_of "data: {not valid json}"))
    by reflexivity.
  assert (H2 : startswith (str_of "data: {not valid json}") prefix = true)
    by reflexivity.
  assert (H3 : Json.loads (slice_from 6 (str_of "data: {not valid json}")) =
               Raise JSONDecodeError) by reflexivity.
  destruct (malformed_line_is_reported_and_skipped Json.loads data_bad _
              H1 H2 H3) as (A & _ & _ & B & _).
  split; [exact H1|]. split; [exact H2|]. split; [exact H3|].
  split; [exact passes_keep_alive_and_bad|]. split; [exact A|].
  exact (B _ _ None passes_keep_alive_and_bad).
Defined.

Lemma other_line_is_skipped_witness :
  (Utf8.decode keep_alive = Return (str_of ": keep-alive") /\
   startswith (str_of ": keep-alive") prefix = false) /\
  loop_body Json.loads keep_alive = Return None /\
  for_lines Json.loads ([data_1] ++ keep_alive :: [data_2]) None =
  for_lines Json.loads ([data_1] ++ [data_2]) None.
Proof.
  assert (H : Utf8.decode keep_alive = Return (str_of ": keep-alive") /\
              startswith (str_of ": keep-alive") prefix = false)
    by (split; reflexivity).
  destruct (other_line_is_skipped Json.loads keep_alive
              (or_intror (or_intror (ex_intro _ _ H)))) as (A & B & _).
  split; [exact H|]. split; [exact A|]. exact (B [data_1] [data_2] None).
Defined.

Lemma first_chunks_read_only_a_prefix_witness :
  pull Json.loads 1 (call (ok [keep_alive; data_1; data_2] None) []) =
  ([Yielded (JInt 1)],
   {| frame := Suspended [data_2] None; held := true; stdout := [] |}) /\
  exists consumed,
    [keep_alive; data_1; data_2] = consumed ++ [data_2] /\
    Forall (fun o => exists v, o = Yielded v) [Yielded (JInt 1)] /\
    forall rest fin',
      pull Json.loads 1
           (call (Return {| status_code := 200;
                            body_lines := consumed ++ rest;
                            body_end := fin' |}) []) =
      ([Yielded (JInt 1)],
       {| frame := Suspended rest fin'; held := true; stdout := [] |}).
Proof.
  split; [reflexivity|].
  apply (first_chunks_read_only_a_prefix Json.loads 1 200
           [keep_alive; data_1; data_2] None [] [Yielded (JInt 1)]
           [data_2] None true []).
  reflexivity.
Defined.

Lemma http_failure_reaches_the_caller_witness :
  (400 <= 404 < 600)%Z /\
  generate_response_stream Json.loads
    (Return {| status_code := 404; body_lines := [data_1];
               body_end := None |}) = ([], Some (HTTPError 404)) /\
  passes Json.loads [keep_alive; data_bad; []] /\
  generate_response_stream Json.loads
    (ok [keep_alive; data_bad; []] (Some ConnectionError)) =
  (fst (for_lines Json.loads [keep_alive; data_bad; []] None),
   Some ConnectionError).
Proof.
  destruct (http_failure_reaches_the_caller Json.loads) as (_ & A & B).
  assert (Hs : (400 <= 404 < 600)%Z) by lia.
  split; [exact Hs|].
  split.
  - exact (proj1 (A {| status_code := 404; body_lines := [data_1];
                       body_end := None |} [] Hs)).
  - split; [exact passes_keep_alive_and_bad|].
    exact (proj2 (B {| status_code := 200;
                       body_lines := [keep_alive; data_bad; []];
                       body_end := Some ConnectionError |}
                    ConnectionError eq_refl eq_refl)
                 passes_keep_alive_and_bad).
Defined.

Lemma stored_defaults_to_false_witness :
  dict_lookup [ (str_of "role", JString (str_of "assistant"));
                (str_of "content", JString (str_of "Hi")) ]
              (str_of "stored") = None /\
  exists f, Main.read_chunk chunk_no_stored = Return f /\
            Main.stored f = JBool false.
Proof.
  split; [reflexivity|].
  exact (proj1 (proj2 (stored_defaults_to_false
                         [ (str_of "role", JString (str_of "assistant"));
                           (str_of "content", JString (str_of "Hi")) ]))
               eq_refl).
Defined.

Lemma decoding_distributes_over_append_witness :
  passes Json.loads [keep_alive; data_bad; []] /\
  chunks (fst (for_lines Json.loads
                 ([keep_alive; data_bad; []] ++ [data_1]) None)) =
  chunks (fst (for_lines Json.loads [keep_alive; data_bad; []] None))
    ++ chunks (fst (for_lines Json.loads [data_1] None)).
Proof.
  split; [exact passes_keep_alive_and_bad|].
  exact (proj1 (proj2 (proj1 (decoding_distributes_over_append Json.loads
                                [keep_alive; data_bad; []] [data_1] None)
                             passes_keep_alive_and_bad))).
Defined.


(** * Further properties of the script *)

(** ** The constructor of the client *)

Import Client.

Lemma drop_while_head {A : Type} (p : A -> bool) (l : list A) (x : A)
      (r : list A) :
  drop_while p l = x :: r -> p x = false.
Proof.
  induction l as [|y l IH]; cbn [drop_while]; [discriminate|].
  destruct (p y) eqn:E; [exact IH|].
  intros [= -> _]. exact E.
Qed.

Lemma drop_while_split {A : Type} (p : A -> bool) (l : list A) :
  exists pre, l = pre ++ drop_while p l /\ Forall (fun x => p x = true) pre.
Proof.
  induction l as [|y l (pre & Hl & Hp)]; cbn [drop_while].
  - exists []. split; [reflexivity|constructor].
  - destruct (p y) eqn:E.
    + exists (y :: pre). split.
      * cbn [app]. rewrite <- Hl. reflexivity.
      * constructor; assumption.
    + exists []. split; [reflexivity|constructor].
Qed.

Lemma is_slash (c : N) : existsb (N.eqb c) (str_of "/") = true -> c = 47.
Proof.
  cbn. rewrite orb_false_r. apply N.eqb_eq.
Qed.

Lemma all_slashes (l : str) :
  Forall (fun c => existsb (N.eqb c) (str_of "/") = true) l ->
  l = repeat 47 (List.length l).
Proof.
  induction 1 as [|c l Hc _ IH]; [reflexivity|].
  cbn [List.length repeat]. rewrite <- IH, (is_slash c Hc). reflexivity.
Qed.

Lemma rstrip_slashes (u : str) (n : nat) :
  rstrip (str_of "/") (u ++ repeat 47 n) = rstrip (str_of "/") u.
Proof.
  unfold rstrip. rewrite rev_app_distr, rev_repeat.
  induction n as [|n IH]; [reflexivity|].
  cbn [repeat app drop_while]. exact IH.
Qed.

(** X1. Whatever URL the client is made with, the [base_url] it keeps does
    not end with a slash. *)
Theorem base_url_has_no_trailing_slash (u s : str) :
  base_url (init u) <> s ++ str_of "/".
Proof.
  cbn [init base_url]. unfold rstrip. intros H.
  apply (f_equal (@rev N)) in H. rewrite rev_involutive, rev_app_distr in H.
  apply drop_while_head in H. discriminate H.
Qed.

Lemma init_split (u : str) : exists n, u = base_url (init u) ++ repeat 47 n.
Proof.
  cbn [init base_url]. unfold rstrip.
  destruct (drop_while_split (fun c => existsb (N.eqb c) (str_of "/"))
                             (rev u)) as (pre & Hl & Hp).
  exists (List.length pre).
  rewrite <- (rev_involutive u) at 1. rewrite Hl at 1.
  rewrite rev_app_distr. f_equal.
  rewrite (all_slashes pre Hp) at 1. rewrite rev_repeat. reflexivity.
Qed.

(** X2. The constructor removes slashes at the end of the URL and nothing
    else: the URL is the [base_url] kept, followed by slashes only. A URL
    that does not end with a slash is kept as it is. *)
Theorem base_url_strips_only_trailing_slashes (u : str) :
  (exists n, u = base_url (init u) ++ repeat 47 n) /\
  ((forall s, u <> s ++ str_of "/") -> base_url (init u) = u).
Proof.
  split; [apply init_split|].
  intros Hu. destruct (init_split u) as [[|n] Hn].
  - cbn [repeat] in Hn. rewrite app_nil_r in Hn. symmetry. exact Hn.
  - exfalso. apply (Hu (base_url (init u) ++ repeat 47 n)).
    rewrite <- app_assoc. rewrite Hn at 1. f_equal.
    change (str_of "/") with (repeat 47 1). rewrite <- repeat_app.
    f_equal. lia.
Qed.

(** X3. Slashes at the end of the URL make no difference: two URLs that
    differ by slashes at the end give the same client, so the same
    requests; and making a client from the [base_url] of a client gives
    that client again. *)
Theorem trailing_slashes_are_ignored (u : str) (n : nat) :
  init (u ++ repeat 47 n) = init u /\
  init (base_url (init u)) = init u /\
  (forall logfile model,
      generate_response_stream_request (init (u ++ repeat 47 n)) logfile model
      = generate_response_stream_request (init u) logfile model).
Proof.
  assert (A : forall v k, init (v ++ repeat 47 k) = init v).
  { intros v k. unfold init. rewrite rstrip_slashes. reflexivity. }
  split; [apply A|]. split.
  - destruct (init_split u) as [k Hk].
    rewrite Hk at 2. symmetry. apply A.
  - intros logfile model. rewrite A. reflexivity.
Qed.

(** ** The requests of the methods *)

(** X4. The name of the conversation goes into the URL as it is, with no
    escaping: [add_message] for the conversation [logfile ++ "/generate"]
    posts to the URL that [generate_response] and
    [generate_response_stream] post to for the conversation [logfile]. *)
Theorem logfile_is_not_escaped
        (self : GPTMeAPIClient) (logfile role content branch : str)
        (model : option str) (streaming : bool) :
  url (add_message_request self (logfile ++ str_of "/generate")
                           role content branch) =
  url (generate_response_request self logfile model streaming) /\
  url (add_message_request self (logfile ++ str_of "/generate")
                           role content branch) =
  url (generate_response_stream_request self logfile model) /\
  method (add_message_request self (logfile ++ str_of "/generate")
                              role content branch) =
  method (generate_response_request self logfile model streaming).
Proof.
  cbn [url method add_message_request generate_response_request
       generate_response_stream_request].
  unfold conversation_url, generate_url. repeat split.
Qed.

(** X5. The payload of [create_conversation] always has the key
    [logfile]. It has the key [messages] exactly when a list with at
    least one message is given, and the key [config] exactly when a
    configuration with at least one entry is given: an empty list or
    dictionary is left out, as [None] is, and the request is then the
    same as with [None]. *)
Theorem empty_messages_and_config_are_left_out
        (self : GPTMeAPIClient) (logfile : str)
        (messages : option (list json))
        (config : option (list (str * json))) :
  let p := create_conversation_payload logfile messages config in
  dict_lookup p (str_of "logfile") = Some (JString logfile) /\
  (dict_lookup p (str_of "messages") = None <->
   messages = None \/ messages = Some []) /\
  (forall m ms, messages = Some (m :: ms) ->
                dict_lookup p (str_of "messages") = Some (JArray (m :: ms))) /\
  (dict_lookup p (str_of "config") = None <->
   config = None \/ config = Some []) /\
  (forall c cs, config = Some (c :: cs) ->
                dict_lookup p (str_of "config") = Some (JObject (c :: cs))) /\
  create_conversation_request self logfile (Some []) config =
  create_conversation_request self logfile None config /\
  create_conversation_request self logfile messages (Some []) =
  create_conversation_request self logfile messages None.
Proof.
  destruct messages as [[|m ms]|], config as [[|c cs]|]; cbn;
    repeat split; intros; try discriminate; try tauto;
    try (left; reflexivity); try (right; reflexivity);
    try (match goal with H : _ \/ _ |- _ => destruct H; discriminate end);
    try (match goal with H : Some _ = Some _ |- _ =>
                         injection H as <- <-; reflexivity end).
Qed.

(** ** The decoder, line by line *)

(** X6. Every line gives at most one event: a run has no more events,
    and so no more chunks and diagnostics together, than lines. *)
Theorem at_most_one_event_per_line
        (json_loads : str -> result json) (lines : list bytes)
        (fin : option exn) :
  (List.length (fst (for_lines json_loads lines fin))
   <= List.length lines)%nat /\
  (List.length (chunks (fst (for_lines json_loads lines fin)))
   + List.length (diagnostics (fst (for_lines json_loads lines fin)))
   <= List.length lines)%nat.
Proof.
  assert (E : forall evs, (List.length (chunks evs)
                           + List.length (diagnostics evs))%nat
                          = List.length evs).
  { induction evs as [|[v|t] evs IH]; cbn [chunks diagnostics List.length];
      lia. }
  rewrite E. split; [|]; induction lines as [|l lines IH];
    try (cbn; lia);
    rewrite for_lines_cons;
    destruct (loop_body json_loads l) as [[ev|]|e];
    cbn [fst List.length]; lia.
Qed.

(** X7. A line gives the chunk [v] exactly when it decodes as UTF-8 to a
    text that begins with [data: ] and [json.loads] returns [v] for what
    follows the prefix. *)
Theorem line_yields_iff
        (json_loads : str -> result json) (l : bytes) (v : json) :
  loop_body json_loads l = Return (Some (Yield v)) <->
  exists s, Utf8.decode l = Return s /\
            startswith s prefix = true /\
            json_loads (slice_from 6 s) = Return v.
Proof.
  split.
  - unfold loop_body. destruct (truthy l); [|discriminate].
    destruct (Utf8.decode l) as [s|e]; [|discriminate].
    destruct (startswith s prefix) eqn:Hs; [|discriminate].
    destruct (json_loads (slice_from 6 s)) as [v'|[]] eqn:Hv;
      try discriminate.
    intros [= <-]. exists s. repeat split; assumption.
  - intros (s & Hd & Hs & Hv).
    rewrite (loop_body_data json_loads l s Hd Hs), Hv. reflexivity.
Qed.

(** X8. A line makes the loop raise [e] exactly when it is not UTF-8 and
    [e] is the error of the decoding, or it decodes to a text with the
    prefix for whose payload [json.loads] raises [e], an exception other
    than [JSONDecodeError]. *)
Theorem line_raises_iff
        (json_loads : str -> result json) (l : bytes) (e : exn) :
  loop_body json_loads l = Raise e <->
  Utf8.decode l = Raise e \/
  exists s, Utf8.decode l = Return s /\
            startswith s prefix = true /\
            json_loads (slice_from 6 s) = Raise e /\
            e <> JSONDecodeError.
Proof.
  split.
  - unfold loop_body. destruct (truthy l); [|discriminate].
    destruct (Utf8.decode l) as [s|e'].
    + destruct (startswith s prefix) eqn:Hs; [|discriminate].
      destruct (json_loads (slice_from 6 s)) as [v'|e'] eqn:Hv;
        [discriminate|].
      intros H. right. exists s.
      destruct e'; try discriminate H; injection H as <-;
        repeat split; try assumption; discriminate.
    + intros [= <-]. left. reflexivity.
  - intros [Hd|(s & Hd & Hs & Hv & He)].
    + unfold loop_body. destruct l as [|b l]; [discriminate Hd|].
      cbn [truthy]. rewrite Hd. reflexivity.
    + rewrite (loop_body_data json_loads l s Hd Hs), Hv.
      destruct e; try reflexivity. contradiction.
Qed.

(** X9. A caller that calls [next] on a new generator once more than the
    run has chunks gets the chunks of the run in order, then the end of
    the iteration or the exception of the run; the generator has then
    ended, and has printed the diagnostics of the run, in order. *)
Theorem draining_the_generator_gives_the_run
        (json_loads : str -> result json) (post : result Response)
        (out : list str) :
  exists h,
    pull json_loads
         (S (List.length
               (chunks (fst (generate_response_stream json_loads post)))))
         (call post out) =
    (map Yielded (chunks (fst (generate_response_stream json_loads post)))
         ++ [last_outcome (snd (generate_response_stream json_loads post))],
     {| frame := Finished; held := h;
        stdout := out ++ diagnostics
                           (fst (generate_response_stream json_loads post)) |}).
Proof.
  destruct post as [r|e]; cbn [generate_response_stream].
  - destruct (raise_for_status r) as [u|e] eqn:Es.
    + destruct (pull_for_lines json_loads (body_lines r) (body_end r) false out)
        as [h H].
      exists h. rewrite <- H. rewrite !pull_succ.
      cbn [next call frame stdout]. rewrite Es. reflexivity.
    + exists false. cbn. rewrite Es, app_nil_r. reflexivity.
  - exists false. cbn. rewrite app_nil_r. reflexivity.
Qed.

(** ** The script: how its parts act on the world *)

Import Script.

Lemma world_eta (w : world) :
  w = {| sent := sent w ++ []; printed := printed w ++ [] |}.
Proof. destruct w. cbn. rewrite !app_nil_r. reflexivity. Qed.

Section Acts.

Variable ok : line -> Prop.

Lemma acts_ret {A : Type} (a : A) : acts ok [] (ret a).
Proof. intros w. exists []. split; [apply world_eta|constructor]. Qed.

Lemma acts_raise {A : Type} (e : error) : acts ok [] (@raise A e).
Proof. intros w. exists []. split; [apply world_eta|constructor]. Qed.

Lemma acts_lift {A : Type} (r : result A) : acts ok [] (lift r).
Proof. destruct r; [apply acts_ret|apply acts_raise]. Qed.

Lemma acts_print (l : line) : ok l -> acts ok [] (print l).
Proof.
  intros Hl w. exists [l]. split; [|repeat constructor; exact Hl].
  cbn. rewrite app_nil_r. reflexivity.
Qed.

Lemma acts_bind {A B : Type} (rqs : list request) (m : M A) (k : A -> M B) :
  acts ok rqs m -> (forall a, acts ok [] (k a)) -> acts ok rqs (bind m k).
Proof.
  intros Hm Hk w. unfold bind. destruct (Hm w) as (ls & Hs & Hls).
  destruct (m w) as [[a|e] w']; cbn [snd] in Hs; subst w'.
  - destruct (Hk a {| sent := sent w ++ rqs; printed := printed w ++ ls |})
      as (ls2 & Hs2 & Hls2).
    exists (ls ++ ls2). split; [|apply Forall_app; split; assumption].
    rewrite Hs2. cbn [sent printed]. rewrite app_nil_r, app_assoc.
    reflexivity.
  - exists ls. split; [reflexivity|assumption].
Qed.

Lemma acts_after {A B : Type} (rqs : list request) (m : M A) (k : A -> M B) :
  acts ok [] m -> never_raises m -> (forall a, acts ok rqs (k a)) ->
  acts ok rqs (bind m k).
Proof.
  intros Hm Hn Hk w. unfold bind. destruct (Hm w) as (ls & Hs & Hls).
  destruct (Hn w) as [a Ha].
  destruct (m w) as [[a'|e] w']; cbn [fst snd] in Hs, Ha; [|discriminate Ha].
  subst w'.
  destruct (Hk a' {| sent := sent w ++ []; printed := printed w ++ ls |})
    as (ls2 & Hs2 & Hls2).
  exists (ls ++ ls2). split; [|apply Forall_app; split; assumption].
  rewrite Hs2. cbn [sent printed]. rewrite app_nil_r, app_assoc.
  reflexivity.
Qed.

Lemma acts_try {A : Type} (rqs : list request) (body : M A)
      (caught : error -> bool) (handler : error -> M A) :
  acts ok rqs body -> (forall e, acts ok [] (handler e)) ->
  acts ok rqs (try_except body caught handler).
Proof.
  intros Hb Hh w. unfold try_except. destruct (Hb w) as (ls & Hs & Hls).
  destruct (body w) as [[a|e] w']; cbn [snd] in Hs; subst w'.
  - exists ls. split; [reflexivity|assumption].
  - destruct (caught e); [|exists ls; split; [reflexivity|assumption]].
    destruct (Hh e {| sent := sent w ++ rqs; printed := printed w ++ ls |})
      as (ls2 & Hs2 & Hls2).
    exists (ls ++ ls2). split; [|apply Forall_app; split; assumption].
    rewrite Hs2. cbn [sent printed]. rewrite app_nil_r, app_assoc.
    reflexivity.
Qed.

Lemma acts_for_each {A : Type} (items : list A) (body : A -> M unit) :
  (forall x, acts ok [] (body x)) -> acts ok [] (for_each items body).
Proof.
  intros Hb. induction items as [|x items IH]; cbn [for_each].
  - apply acts_ret.
  - apply acts_bind; [apply Hb|intros _; exact IH].
Qed.

Lemma acts_for_chunks (lines : list bytes) (fin : option exn)
      (body : json -> M unit) :
  (forall t, ok [Chars t]) -> (forall x, acts ok [] (body x)) ->
  acts ok [] (for_chunks lines fin body).
Proof.
  intros Hc Hb. induction lines as [|l lines IH]; cbn [for_chunks].
  - destruct fin; [apply acts_raise|apply acts_ret].
  - destruct (loop_body Json.loads l) as [[[v|t]|]|e].
    + apply acts_bind; [apply Hb|intros _; exact IH].
    + apply acts_bind; [apply acts_print, Hc|intros _; exact IH].
    + exact IH.
    + apply acts_raise.
Qed.

Lemma acts_len (v : json) : acts ok [] (len v).
Proof. destruct v; first [apply acts_ret|apply acts_raise]. Qed.

Lemma acts_iter (v : json) : acts ok [] (iter v).
Proof. destruct v; first [apply acts_ret|apply acts_raise]. Qed.

Lemma acts_slice_to (n : nat) (v : json) : acts ok [] (slice_to n v).
Proof. destruct v; first [apply acts_ret|apply acts_raise]. Qed.

Lemma acts_get (v : json) (key : string) (default : json) :
  acts ok [] (get v key default).
Proof. apply acts_lift. Qed.

Lemma acts_request_json (server : request -> result Reply) (rq : request) :
  acts ok [rq] (request_json server rq).
Proof.
  intros w. exists []. split; [|constructor]. unfold request_json.
  rewrite app_nil_r. destruct (send server rq); reflexivity.
Qed.

Lemma acts_for_stream (server : request -> result Reply) (logfile : str)
      (body : json -> M unit) :
  (forall t, ok [Chars t]) -> (forall x, acts ok [] (body x)) ->
  acts ok [generate_response_stream_request client logfile None]
       (for_stream server logfile body).
Proof.
  intros Hc Hb w. unfold for_stream.
  destruct (stream_post server client logfile None) as [r|e].
  - destruct (raise_for_status r).
    + destruct (acts_for_chunks (body_lines r) (body_end r) body Hc Hb
                  {| sent := sent w
                             ++ [generate_response_stream_request
                                   client logfile None];
                     printed := printed w |}) as (ls & Hs & Hls).
      exists ls. split; [|exact Hls]. rewrite Hs. cbn [sent printed].
      rewrite app_nil_r. reflexivity.
    + exists []. split; [|constructor]. cbn. rewrite app_nil_r. reflexivity.
  - exists []. split; [|constructor]. cbn. rewrite app_nil_r. reflexivity.
Qed.

End Acts.

Lemma never_raises_ret {A : Type} (a : A) : never_raises (ret a).
Proof. intros w. exists a. reflexivity. Qed.

Lemma never_raises_print (l : line) : never_raises (print l).
Proof. intros w. exists tt. reflexivity. Qed.

Lemma never_raises_bind {A B : Type} (m : M A) (k : A -> M B) :
  never_raises m -> (forall a, never_raises (k a)) -> never_raises (bind m k).
Proof.
  intros Hm Hk w. unfold bind. destruct (Hm w) as [a Ha].
  destruct (m w) as [[a'|e] w']; cbn [fst] in Ha; [|discriminate Ha].
  apply Hk.
Qed.

Lemma never_raises_print_section (title : string) :
  never_raises (print_section title).
Proof.
  unfold print_section.
  repeat (apply never_raises_bind; [apply never_raises_print|intros _]).
  apply never_raises_print.
Qed.

Lemma never_raises_try_any {A : Type} (body : M A) (handler : error -> M A) :
  (forall e, never_raises (handler e)) ->
  never_raises (try_except body any_exception handler).
Proof.
  intros Hh w. unfold try_except.
  destruct (body w) as [[a|e] w']; [exists a; reflexivity|].
  cbn [any_exception]. apply Hh.
Qed.

Ltac line_ok :=
  unfold not_the_title, tutorial_complete;
  let H := fresh in intro H; discriminate H.

Lemma acts_print_section (ok : line -> Prop) (title : string) :
  ok [Text nl; Text (times "=" 60)] -> ok [Text "  "; Text title] ->
  ok [Text (times "=" 60)] ->
  acts ok [] (print_section title).
Proof.
  intros H1 H2 H3. unfold print_section.
  repeat (apply acts_bind; [apply acts_print; assumption|intros _]).
  apply acts_print; assumption.
Qed.

Ltac act :=
  lazymatch goal with
  | |- acts _ [] (bind _ _) => apply acts_bind; [act|intros ?; act]
  | |- acts _ _ (bind (request_json _ _) _) =>
    apply acts_bind; [apply acts_request_json|intros ?; act]
  | |- acts _ _ (bind (for_stream _ _ _) _) =>
    apply acts_bind;
    [apply acts_for_stream; [intros ?; line_ok|intros ?; act]|intros ?; act]
  | |- acts _ _ (bind (print _) _) =>
    apply acts_after;
    [apply acts_print; line_ok|apply never_raises_print|intros ?; act]
  | |- acts _ _ (bind (print_section _) _) =>
    apply acts_after;
    [apply acts_print_section; line_ok|apply never_raises_print_section
     |intros ?; act]
  | |- acts _ _ (try_except _ _ _) => apply acts_try; [act|intros ?; act]
  | |- acts _ _ (request_json _ _) => apply acts_request_json
  | |- acts _ _ (for_stream _ _ _) =>
    apply acts_for_stream; [intros ?; line_ok|intros ?; act]
  | |- acts _ [] (ret _) => apply acts_ret
  | |- acts _ [] (raise _) => apply acts_raise
  | |- acts _ [] (lift _) => apply acts_lift
  | |- acts _ [] (len _) => apply acts_len
  | |- acts _ [] (iter _) => apply acts_iter
  | |- acts _ [] (slice_to _ _) => apply acts_slice_to
  | |- acts _ [] (get _ _ _) => apply acts_get
  | |- acts _ [] (print _) => apply acts_print; line_ok
  | |- acts _ [] (print_section _) => apply acts_print_section; line_ok
  | |- acts _ [] (for_each _ _) => apply acts_for_each; intros ?; act
  | |- acts _ [] (test4_message _) => unfold test4_message; act
  | |- acts _ [] (test5_message _) => unfold test5_message; act
  | |- acts _ [] (test6_chunk _) => unfold test6_chunk; act
  | |- acts _ _ (if ?b then _ else _) => destruct b; act
  end.

Lemma acts_then_bind {A B : Type} (ok : line -> Prop)
      (r1 r2 : list request) (m : M A) (k : A -> M B) :
  acts ok r1 m -> (forall a, acts ok r2 (k a)) ->
  (forall a, never_raises (k a)) ->
  acts_then ok r1 r2 (bind m k).
Proof.
  intros Hm Hk Hn w. unfold bind. destruct (Hm w) as (ls & Hs & Hls).
  destruct (m w) as [[a|e] w']; cbn [snd] in Hs; subst w'.
  - destruct (Hk a {| sent := sent w ++ r1; printed := printed w ++ ls |})
      as (ls2 & Hs2 & Hls2).
    destruct (Hn a {| sent := sent w ++ r1; printed := printed w ++ ls |})
      as [b Hb].
    exists (ls ++ ls2). split; [apply Forall_app; split; assumption|].
    right. exists b.
    destruct (k a _) as [[b'|e'] w']; cbn [fst snd] in Hs2, Hb;
      [|discriminate Hb].
    injection Hb as ->. subst w'. cbn [sent printed].
    rewrite <- !app_assoc. reflexivity.
  - exists ls. split; [assumption|]. left. exists e. reflexivity.
Qed.

Lemma acts_then_after {A B : Type} (ok : line -> Prop)
      (r1 r2 : list request) (m : M A) (k : A -> M B) :
  acts ok [] m -> never_raises m -> (forall a, acts_then ok r1 r2 (k a)) ->
  acts_then ok r1 r2 (bind m k).
Proof.
  intros Hm Hn Hk w. unfold bind. destruct (Hm w) as (ls & Hs & Hls).
  destruct (Hn w) as [a Ha].
  destruct (m w) as [[a'|e] w']; cbn [fst snd] in Hs, Ha; [|discriminate Ha].
  subst w'.
  destruct (Hk a' {| sent := sent w ++ []; printed := printed w ++ ls |})
    as (ls2 & Hls2 & [[e He]|[b Hb]]).
  - exists (ls ++ ls2). split; [apply Forall_app; split; assumption|].
    left. exists e. rewrite He. cbn [sent printed].
    rewrite app_nil_r, <- !app_assoc. reflexivity.
  - exists (ls ++ ls2). split; [apply Forall_app; split; assumption|].
    right. exists b. rewrite Hb. cbn [sent printed].
    rewrite app_nil_r, <- !app_assoc. reflexivity.
Qed.

Section MainFacts.

Variable server : request -> result Reply.

Lemma acts_test1 :
  acts not_the_title [get_api_root_request client] (test1 server).
Proof. unfold test1. act. Qed.

Lemma acts_test2 :
  acts not_the_title [get_conversations_request client 5] (test2 server).
Proof. unfold test2. act. Qed.

Lemma acts_test3 :
  acts not_the_title
       [create_conversation_request client conversation_id
                                    (Some initial_messages) None]
       (test3 server).
Proof. unfold test3. act. Qed.

Lemma acts_test4 :
  acts not_the_title [get_conversation_request client conversation_id]
       (test4 server).
Proof. unfold test4. act. Qed.

Lemma acts_test5 :
  acts not_the_title
       [generate_response_request client conversation_id None false]
       (test5 server).
Proof. unfold test5. act. Qed.

Lemma test5_never_raises : never_raises (test5 server).
Proof.
  unfold test5.
  apply never_raises_bind; [apply never_raises_print_section|intros _].
  apply never_raises_bind; [apply never_raises_print|intros _].
  apply never_raises_try_any. intros e.
  apply never_raises_bind; [apply never_raises_print|intros _].
  apply never_raises_print.
Qed.

Lemma acts_then_test6 :
  acts_then not_the_title
            [add_message_request client conversation_id (str_of "user")
                                 factorial_request default_branch]
            [generate_response_stream_request client conversation_id None]
            (test6 server).
Proof.
  unfold test6.
  apply acts_then_after;
    [apply acts_print_section; line_ok|apply never_raises_print_section|].
  intros _.
  apply acts_then_after;
    [apply acts_print; line_ok|apply never_raises_print|].
  intros _.
  apply acts_then_bind; [apply acts_request_json| |]; intros _.
  - act.
  - apply never_raises_bind; [apply never_raises_print|intros _].
    apply never_raises_try_any. intros e.
    apply never_raises_bind; [apply never_raises_print|intros _].
    apply never_raises_print.
Qed.

Lemma closing_prints_the_title (w : world) :
  exists ls,
    closing w = (Ok tt, {| sent := sent w; printed := printed w ++ ls |}) /\
    In tutorial_complete ls.
Proof.
  eexists. split.
  - unfold closing, print_section, bind, print. cbn [sent printed].
    rewrite <- !app_assoc. cbn [app]. reflexivity.
  - right. left. reflexivity.
Qed.

Lemma not_the_title_not_in (ls : list line) :
  Forall not_the_title ls -> ~ In tutorial_complete ls.
Proof.
  intros H Hin. rewrite Forall_forall in H. exact (H _ Hin eq_refl).
Qed.

Ltac next_test lem :=
  unfold bind at 1;
  match goal with
  | |- context [match ?t ?W with _ => _ end] =>
    let ls := fresh "ls" in
    let Hs := fresh "Hs" in
    let Hok := fresh "Hok" in
    destruct (lem W) as (ls & Hs & Hok);
    destruct (t W) as [[] ?]; cbn [snd] in Hs; subst; cbn [sent printed]
  end.

Ltac stops_after n :=
  exists n; do 2 eexists; split; [cbn; tauto|]; split;
  [unfold ret; unfold all_requests; cbn [firstn];
   apply f_equal2; [reflexivity|];
   f_equal; rewrite <- ?app_assoc; reflexivity
  |right; split; [discriminate|];
   repeat (apply Forall_app; split); assumption].

Lemma tests_spec (w : world) :
  exists n ls r,
    In n [1; 2; 3; 4; 6; 7]%nat /\
    tests server w =
    (r, {| sent := sent w ++ firstn n all_requests;
           printed := printed w ++ ls |}) /\
    ((n = 7%nat /\ In tutorial_complete ls /\ r = Ok tt) \/
     (n <> 7%nat /\ Forall not_the_title ls)).
Proof.
  unfold tests. unfold bind at 1.
  destruct (acts_test1 w) as (l1 & S1 & O1).
  destruct (test1 server w) as [[[|]|e1] w1]; cbn [snd] in S1; subst w1;
    [|stops_after 1%nat|stops_after 1%nat].
  next_test acts_test2; [|stops_after 2%nat].
  next_test acts_test3; [|stops_after 3%nat].
  next_test acts_test4; [|stops_after 4%nat].
  unfold bind at 1.
  match goal with
  | |- context [test5 server ?W] =>
    destruct (acts_test5 W) as (l5 & S5 & O5);
    destruct (test5_never_raises W) as [u5 N5];
    destruct (test5 server W) as [[[]|e5] w5]; cbn [fst snd] in S5, N5;
    [|discriminate N5]; subst w5; cbn [sent printed]
  end.
  unfold bind at 1.
  match goal with
  | |- context [test6 server ?W] =>
    destruct (acts_then_test6 W) as (l6 & O6 & [[e6 S6]|[[] S6]]);
    rewrite S6; cbn [sent printed]
  end.
  - stops_after 6%nat.
  - match goal with
    | |- context [closing ?W] =>
      destruct (closing_prints_the_title W) as (l7 & S7 & I7);
      rewrite S7; cbn [sent printed fst snd]
    end.
    exists 7%nat. do 2 eexists. split; [cbn; tauto|]. split.
    + unfold all_requests; cbn [firstn].
      apply f_equal2; [reflexivity|].
      f_equal; rewrite <- ?app_assoc; reflexivity.
    + left. split; [reflexivity|]. split; [|reflexivity].
      repeat (apply in_or_app; right). exact I7.
Qed.

(** X10. Whatever the server does, the requests [main] sends are the
    first [n] of its seven requests, in the order of the script, and [n]
    is 1, 2, 3, 4, 6 or 7: the script never stops between the request for
    a generated response and the request that adds a message, because a
    failure of the generation is caught in Test 5; and once the message is
    added, a failure of the streaming is caught in Test 6. The last
    section, Tutorial Complete, is printed exactly when all seven requests
    have been sent. *)
Theorem main_sends_a_prefix_of_its_requests :
  exists n,
    In n [1; 2; 3; 4; 6; 7]%nat /\
    sent (snd (main server start)) = firstn n all_requests /\
    (In tutorial_complete (printed (snd (main server start))) <-> n = 7%nat).
Proof.
  unfold main. cbn [bind print_section print sent printed start app].
  match goal with
  | |- context [try_except _ _ _ ?W] =>
    destruct (tests_spec W) as (n & ls & r & Hn & Hs & Hc)
  end.
  exists n. split; [exact Hn|]. unfold try_except. rewrite Hs.
  cbn [sent printed] in *.
  assert (Hh : forall a b : list line,
             Forall not_the_title b ->
             (In tutorial_complete
                 (([[Text nl; Text (times "=" 60)];
                    [Text "  "; Text "GPTMe Server API Tutorial PoC"];
                    [Text (times "=" 60)];
                    [Text "Connecting to server at: http://localhost:11130"];
                    [Text nl; Text "Note: This script requires the gptme-server to be running."];
                    [Text "Start it with: docker run -p 11130:8000 gptme-server:latest"]]
                     ++ a) ++ b) <-> In tutorial_complete a)).
  { intros a b Hb. split.
    - intros H. apply in_app_or in H. destruct H as [H|H].
      + apply in_app_or in H. destruct H as [H|H]; [|exact H].
        exfalso. cbn in H. unfold tutorial_complete in H.
        repeat (destruct H as [H|H]; [discriminate H|]). exact H.
      + exfalso. exact (not_the_title_not_in b Hb H).
    - intros H. apply in_or_app. left. apply in_or_app. right. exact H. }
  assert (Hc' : In tutorial_complete ls <-> n = 7%nat).
  { destruct Hc as [(-> & Hin & _)|(Hn7 & Hok)].
    - split; intros _; [reflexivity|exact Hin].
    - split; [|intros H; contradiction].
      intros H. exfalso. exact (not_the_title_not_in ls Hok H). }
  destruct r as [[]|e]; cbn [fst snd sent printed].
  - split; [reflexivity|].
    rewrite <- Hc', <- (Hh ls [] (Forall_nil _)), app_nil_r. reflexivity.
  - destruct (is_http_error e); cbn [print snd sent printed];
      (split; [reflexivity|]); rewrite <- Hc';
      apply Hh; repeat constructor; line_ok.
Qed.

(** X11. When the health check cannot connect, [main] sends that one
    request, prints the hint to start the server and returns: it does
    what it does when no server is there at all, whatever the server
    would have answered to the other requests. *)
Theorem unreachable_server_ends_main_after_the_health_check :
  server (get_api_root_request client) = Raise ConnectionError ->
  main server start = main down start /\
  fst (main server start) = Ok tt /\
  sent (snd (main server start)) = [get_api_root_request client] /\
  last (printed (snd (main server start))) [] =
  [Text "  docker run -p 11130:8000 -e GPTME_DISABLE_AUTH=true gptme-server:latest"].
Proof.
  intros H.
  assert (E : main server start = main down start).
  { unfold main, tests, test1.
    cbn [bind print_section print sent printed start app try_except].
    unfold request_json, send. cbn [sent printed]. rewrite H.
    reflexivity. }
  rewrite E. repeat split.
Qed.

End MainFacts.

(** ** The loops of [main] over messages and chunks *)

Lemma firstn_not_longer {A : Type} (n : nat) (l : list A) :
  Nat.ltb n (List.length (firstn n l)) = false.
Proof. apply Nat.ltb_ge. apply firstn_le_length. Qed.

(** X12. Test 4 never prints the mark [...]: the content of a message is
    cut to 100 characters before its length is compared with 100, so the
    line of a message always ends with the empty text. A content of more
    than 100 characters is shown as its first 100 characters, with
    nothing to tell that it was cut. *)
Theorem test4_never_prints_the_ellipsis (msg : json) (w w' : world) :
  test4_message msg w = (Ok tt, w') ->
  (exists role content,
      w' = {| sent := sent w;
              printed := printed w
                           ++ [[Text "  ["; Value role; Text "] ";
                                Value content; Text ""]] |}) /\
  (forall s, Main.get msg (str_of "content") (text "") = Return (JString s) ->
             exists role,
               w' = {| sent := sent w;
                       printed := printed w
                                    ++ [[Text "  ["; Value role; Text "] ";
                                         Value (JString (firstn 100 s));
                                         Text ""]] |}).
Proof.
  unfold test4_message, get, bind, lift.
  destruct msg as [| | | | | |d]; cbn [Main.get raise ret]; try discriminate.
  destruct (dict_lookup d (str_of "content")) as [[| | | |s|items|]|];
    cbn [slice_to len raise ret text]; try discriminate;
    rewrite ?firstn_not_longer; unfold print; cbn [sent printed];
    intros [= <-]; (split; [eexists; eexists; reflexivity|]);
    intros s' [= <-]; eexists; reflexivity.
Qed.








(** ** The further properties at concrete inputs *)

Lemma default_base_url_has_no_slash (s : str) :
  default_base_url <> s ++ str_of "/".
Proof.
  intros H. apply (f_equal (@rev N)) in H. rewrite rev_app_distr in H.
  cbn in H. discriminate H.
Defined.

Lemma base_url_strips_only_trailing_slashes_witness :
  (forall s, default_base_url <> s ++ str_of "/") /\
  base_url (init default_base_url) = default_base_url.
Proof.
  split; [exact default_base_url_has_no_slash|].
  exact (proj2 (base_url_strips_only_trailing_slashes default_base_url)
               default_base_url_has_no_slash).
Defined.

Lemma empty_messages_and_config_are_left_out_witness :
  dict_lookup (create_conversation_payload conversation_id
                                           (Some initial_messages) None)
              (str_of "messages") = Some (JArray initial_messages) /\
  create_conversation_request client conversation_id (Some []) None =
  create_conversation_request client conversation_id None None.
Proof.
  destruct (empty_messages_and_config_are_left_out
              client conversation_id (Some initial_messages) None)
    as (_ & _ & A & _).
  destruct (empty_messages_and_config_are_left_out
              client conversation_id None None)
    as (_ & _ & _ & _ & _ & B & _).
  split; [exact (A _ _ eq_refl)|exact B].
Defined.

Lemma line_yields_iff_witness :
  (exists s, Utf8.decode data_1 = Return s /\
             startswith s prefix = true /\
             Json.loads (slice_from 6 s) = Return (JInt 1)) /\
  loop_body Json.loads data_1 = Return (Some (Yield (JInt 1))).
Proof.
  assert (H : exists s, Utf8.decode data_1 = Return s /\
                        startswith s prefix = true /\
                        Json.loads (slice_from 6 s) = Return (JInt 1)).
  { exists (str_of "data: 1"). repeat split. }
  split; [exact H|].
  exact (proj2 (line_yields_iff Json.loads data_1 (JInt 1)) H).
Defined.

Lemma line_raises_iff_witness :
  Utf8.decode not_utf8 = Raise UnicodeDecodeError /\
  loop_body Json.loads not_utf8 = Raise UnicodeDecodeError.
Proof.
  split; [reflexivity|].
  exact (proj2 (line_raises_iff Json.loads not_utf8 UnicodeDecodeError)
               (or_introl eq_refl)).
Defined.

Lemma main_sends_a_prefix_of_its_requests_witness :
  exists n,
    In n [1; 2; 3; 4; 6; 7]%nat /\
    sent (snd (main no_model start)) = firstn n all_requests /\
    (In tutorial_complete (printed (snd (main no_model start))) <-> n = 7%nat).
Proof. exact (main_sends_a_prefix_of_its_requests no_model). Defined.

Lemma unreachable_server_ends_main_after_the_health_check_witness :
  no_root (get_api_root_request client) = Raise ConnectionError /\
  main no_root start = main down start /\
  sent (snd (main no_root start)) = [get_api_root_request client].
Proof.
  assert (H : no_root (get_api_root_request client) = Raise ConnectionError)
    by reflexivity.
  destruct (unreachable_server_ends_main_after_the_health_check no_root H)
    as (A & _ & B & _).
  split; [exact H|]. split; [exact A|exact B].
Defined.

Lemma test4_never_prints_the_ellipsis_witness :
  test4_message (long_message 150) start =
  (Ok tt, snd (test4_message (long_message 150) start)) /\
  exists role,
    snd (test4_message (long_message 150) start) =
    {| sent := [];
       printed := [] ++ [[Text "  ["; Value role; Text "] ";
                          Value (JString (firstn 100 (repeat 120 150)));
                          Text ""]] |}.
Proof.
  assert (H : test4_message (long_message 150) start =
              (Ok tt, snd (test4_message (long_message 150) start)))
    by reflexivity.
  split; [exact H|].
  exact (proj2 (test4_never_prints_the_ellipsis (long_message 150) start _ H)
               (repeat 120 150) eq_refl).
Defined.




